(** * EPG firmware: acquisition, staging, chunked transport and command gate

    A shallow embedding of [firmware/src/adc.c], [firmware/src/bluetooth.c]
    and [firmware/src/main.c].

    Conventions.
    - C integers are [Z]; a [size_t] / [uint32_t] result is reduced with
      [wrap32], a [uint16_t] one with [wrap16].
    - C arrays are lists of their fixed length.  Every load and store goes
      through [load] / [store], which answer [OutOfBounds] outside the array,
      so that a run which ends in [Ok] has touched its arrays in bounds only.
    - Calls into modules outside these three files (DDS, GPIO, the GATT
      stack, the SAADC driver) are recorded in the state, in call order. *)

From Stdlib Require Import ZArith QArith Lia Bool Ascii String PrimFloat Uint63.
From stdpp Require Import base tactics option list.

Local Open Scope Z_scope.

(** ** Outcome of a run *)

Inductive result (A : Type) : Type :=
| Ok (a : A)
| OutOfBounds      (* a load or a store fell outside its array *)
| OutOfFuel        (* the loop budget of the model was too small *)
| DivisionByZero.  (* an integer division by zero *)

Arguments Ok {A} a.
Arguments OutOfBounds {A}.
Arguments OutOfFuel {A}.
Arguments DivisionByZero {A}.

#[global] Instance result_ret : MRet result := fun A a => Ok a.

#[global] Instance result_bind : MBind result := fun A B f m =>
  match m with
  | Ok a => f a
  | OutOfBounds => OutOfBounds
  | OutOfFuel => OutOfFuel
  | DivisionByZero => DivisionByZero
  end.

(** ** Machine integers and arrays *)

Definition wrap16 (z : Z) : Z := z mod 2 ^ 16.
Definition wrap32 (z : Z) : Z := z mod 2 ^ 32.

(** [a[i]] as an rvalue. *)
Definition load {A} (a : list A) (i : Z) : result A :=
  if (0 <=? i) && (i <? Z.of_nat (length a))
  then match a !! Z.to_nat i with
       | Some x => Ok x
       | None => OutOfBounds
       end
  else OutOfBounds.

(** [a[i] = x]. *)
Definition store {A} (a : list A) (i : Z) (x : A) : result (list A) :=
  if (0 <=? i) && (i <? Z.of_nat (length a))
  then Ok (<[Z.to_nat i := x]> a)
  else OutOfBounds.

(** [memcpy(dst, src, n)] on arrays of equal element type, [src] being the
    [n] elements read: element [k] of [src] is stored at [dst[at + k]]. *)
Fixpoint memcpy_from {A} (dst : list A) (pos : Z) (src : list A) : result (list A) :=
  match src with
  | [] => Ok dst
  | x :: src' => dst' ← store dst pos x; memcpy_from dst' (pos + 1) src'
  end.

Definition memcpy {A} (dst src : list A) : result (list A) := memcpy_from dst 0 src.

(** [for (i = from; i < from + count; i++) body], the bound not changing
    inside the body. *)
Fixpoint for_range {S} (count : nat) (i : Z) (body : Z -> S -> result S) (s : S)
  : result S :=
  match count with
  | O => Ok s
  | S count' => s' ← body i s; for_range count' (i + 1) body s'
  end.

(** ** bluetooth.c *)

Module Bluetooth.

Definition RECEIVE_BUFF_SIZE : Z := 20.

Definition NUL : ascii := Ascii.zero.

(** What the file takes from outside the repository: the C library's
    [atoi] and [atof] (applied to the characters up to the terminator),
    and the two limits declared in [dds.h]. *)
Record platform := {
  atoi : list ascii -> Z;
  atof : list ascii -> float;
  MIN_DDS_AMPLIFICATION : float;
  MAX_DDS_AMPLIFICATION : float }.

(** Calls into the DDS and GPIO modules. *)
Inductive peripheral_call :=
| changeDDSVal (val : Z)
| set_dds_amplification (amplification : float)
| set_dds_offset (offset : float)
| configure_pga (number setting : Z)
| digipot_wiper_set (channel value : Z)
| set_mux (setting : Z)
| set_signal_chain_offset (offset : float)
| set_signal_chain_amplification (gain : float)
| start_dds (hz : Z)
| dds_sleep
| power_up
| power_down.

(** The file's static variables, and the calls it has made so far. *)
Record ble_state := {
  write_buffer : list ascii;          (* uint8_t [RECEIVE_BUFF_SIZE] *)
  digipot_channel : Z;
  digipot_setting : Z;
  pga_number : Z;
  pga_setting : Z;
  start_received : bool;
  on_received : bool;
  notify_enabled : bool;
  ble_connected : bool;
  calls : list peripheral_call;       (* DDS / GPIO calls, oldest first *)
  chunk_calls : list (list Z);        (* entries of ble_send_adc_chunk *)
  notified : list (list Z) }.         (* payloads given to bt_gatt_notify *)

Definition init_state : ble_state := {|
  write_buffer := replicate (Z.to_nat RECEIVE_BUFF_SIZE) NUL;
  digipot_channel := 0; digipot_setting := 0;
  pga_number := 0; pga_setting := 0;
  start_received := false; on_received := false;
  notify_enabled := false; ble_connected := false;
  calls := []; chunk_calls := []; notified := [] |}.

Definition set_write_buffer (wb : list ascii) (b : ble_state) : ble_state :=
  {| write_buffer := wb;
     digipot_channel := digipot_channel b; digipot_setting := digipot_setting b;
     pga_number := pga_number b; pga_setting := pga_setting b;
     start_received := start_received b; on_received := on_received b;
     notify_enabled := notify_enabled b; ble_connected := ble_connected b;
     calls := calls b; chunk_calls := chunk_calls b; notified := notified b |}.

Definition call (c : peripheral_call) (b : ble_state) : ble_state :=
  {| write_buffer := write_buffer b;
     digipot_channel := digipot_channel b; digipot_setting := digipot_setting b;
     pga_number := pga_number b; pga_setting := pga_setting b;
     start_received := start_received b; on_received := on_received b;
     notify_enabled := notify_enabled b; ble_connected := ble_connected b;
     calls := calls b ++ [c]; chunk_calls := chunk_calls b; notified := notified b |}.

Definition set_pga (number setting : Z) (b : ble_state) : ble_state :=
  {| write_buffer := write_buffer b;
     digipot_channel := digipot_channel b; digipot_setting := digipot_setting b;
     pga_number := number; pga_setting := setting;
     start_received := start_received b; on_received := on_received b;
     notify_enabled := notify_enabled b; ble_connected := ble_connected b;
     calls := calls b; chunk_calls := chunk_calls b; notified := notified b |}.

Definition set_digipot (channel value : Z) (b : ble_state) : ble_state :=
  {| write_buffer := write_buffer b;
     digipot_channel := channel; digipot_setting := value;
     pga_number := pga_number b; pga_setting := pga_setting b;
     start_received := start_received b; on_received := on_received b;
     notify_enabled := notify_enabled b; ble_connected := ble_connected b;
     calls := calls b; chunk_calls := chunk_calls b; notified := notified b |}.

Definition set_start_received (v : bool) (b : ble_state) : ble_state :=
  {| write_buffer := write_buffer b;
     digipot_channel := digipot_channel b; digipot_setting := digipot_setting b;
     pga_number := pga_number b; pga_setting := pga_setting b;
     start_received := v; on_received := on_received b;
     notify_enabled := notify_enabled b; ble_connected := ble_connected b;
     calls := calls b; chunk_calls := chunk_calls b; notified := notified b |}.

Definition set_on_received (v : bool) (b : ble_state) : ble_state :=
  {| write_buffer := write_buffer b;
     digipot_channel := digipot_channel b; digipot_setting := digipot_setting b;
     pga_number := pga_number b; pga_setting := pga_setting b;
     start_received := start_received b; on_received := v;
     notify_enabled := notify_enabled b; ble_connected := ble_connected b;
     calls := calls b; chunk_calls := chunk_calls b; notified := notified b |}.

Definition set_link (connected notify : bool) (b : ble_state) : ble_state :=
  {| write_buffer := write_buffer b;
     digipot_channel := digipot_channel b; digipot_setting := digipot_setting b;
     pga_number := pga_number b; pga_setting := pga_setting b;
     start_received := start_received b; on_received := on_received b;
     notify_enabled := notify; ble_connected := connected;
     calls := calls b; chunk_calls := chunk_calls b; notified := notified b |}.

Definition log_chunk (data : list Z) (b : ble_state) : ble_state :=
  {| write_buffer := write_buffer b;
     digipot_channel := digipot_channel b; digipot_setting := digipot_setting b;
     pga_number := pga_number b; pga_setting := pga_setting b;
     start_received := start_received b; on_received := on_received b;
     notify_enabled := notify_enabled b; ble_connected := ble_connected b;
     calls := calls b; chunk_calls := chunk_calls b ++ [data]; notified := notified b |}.

Definition bt_gatt_notify (data : list Z) (b : ble_state) : ble_state :=
  {| write_buffer := write_buffer b;
     digipot_channel := digipot_channel b; digipot_setting := digipot_setting b;
     pga_number := pga_number b; pga_setting := pga_setting b;
     start_received := start_received b; on_received := on_received b;
     notify_enabled := notify_enabled b; ble_connected := ble_connected b;
     calls := calls b; chunk_calls := chunk_calls b; notified := notified b ++ [data] |}.

(** The characters of the C string that starts at [wb[i]]. *)
Fixpoint c_str (l : list ascii) : list ascii :=
  match l with
  | [] => []
  | c :: l' => if Ascii.eqb c NUL then [] else c :: c_str l'
  end.

Definition str_at (wb : list ascii) (i : nat) : list ascii := c_str (drop i wb).

(** [wb[i]], for the constant indices the parser uses. *)
Definition at_ (wb : list ascii) (i : nat) : ascii := nth i wb NUL.

Definition code (c : ascii) : Z := Z.of_N (N_of_ascii c).

Definition has (wb : list ascii) (i : nat) (c : ascii) : bool := Ascii.eqb (at_ wb i) c.
Arguments has wb i%_nat c%_char.
Arguments code c%_char.
Arguments at_ wb i%_nat.
Arguments str_at wb i%_nat.

(** The double constants of the range tests: 3.3 is the double
    0x1.a666666666666p+1. *)
Definition f3_3 : float := 0x1.a666666666666p+1%float.
Definition f1_0 : float := 1%float.
Definition f7000 : float := 7000%float.

(** [lo <= x && x <= hi] on doubles (false when [x] is a NaN). *)
Definition between (lo hi x : float) : bool := PrimFloat.leb lo x && PrimFloat.leb x hi.

Section WithPlatform.

Variable libc : platform.

(** The body of [write_custom_value] after the receive buffer has been
    filled.  [None] as returned value: control reached the closing brace
    of the function, which has no [return] there. *)
Definition dispatch (len : Z) (b : ble_state) : ble_state * option Z :=
  let wb := write_buffer b in
  if has wb 0 "S" && has wb 1 "D" && has wb 2 "D" && has wb 3 "S" && has wb 4 ":" then
    let val := wrap16 (atoi libc (str_at wb 5)) in
    (call (changeDDSVal val) b, Some len)
  else if has wb 0 "D" && has wb 1 "D" && has wb 2 "S" && has wb 3 "A" && has wb 4 ":" then
    let amplification := atof libc (str_at wb 5) in
    if between (MIN_DDS_AMPLIFICATION libc) (MAX_DDS_AMPLIFICATION libc) amplification
    then (call (set_dds_amplification amplification) b, Some len)
    else (b, Some len)
  else if has wb 0 "D" && has wb 1 "D" && has wb 2 "S" && has wb 3 "O" && has wb 4 ":" then
    let offset := atof libc (str_at wb 5) in
    if between (- f3_3) f3_3 offset
    then (call (set_dds_offset offset) b, Some len)
    else (b, Some len)
  else if has wb 0 "P" && has wb 2 ":" then
    let number := wrap16 (code (at_ wb 1) - code "0") in
    let setting := wrap16 (atoi libc (str_at wb 3)) in
    if (1 <=? number) && (number <=? 2) && (0 <=? setting) && (setting <=? 7)
    then (call (configure_pga number setting) (set_pga number setting b), Some len)
    else (b, Some len)
  else if has wb 0 "D" && has wb 2 ":" then
    let channel := code (at_ wb 1) - code "0" in
    let value := atoi libc (str_at wb 3) in
    if (0 <=? channel) && (channel <=? 3) && (0 <=? value) && (value <=? 255)
    then (call (digipot_wiper_set channel value) (set_digipot channel value b), Some len)
    else (b, Some len)
  else if has wb 0 "M" && has wb 1 ":" && (code "0" <=? code (at_ wb 2))
          && (code (at_ wb 2) <=? code "7") then
    let setting := code (at_ wb 2) - code "0" in
    if (0 <=? setting) && (setting <=? 7)
    then (call (set_mux setting) b, Some len)
    else (b, Some len)
  else if has wb 0 "S" && has wb 1 "C" && has wb 2 "O" && has wb 3 ":" then
    let offset := atof libc (str_at wb 4) in
    if between (- f3_3) f3_3 offset
    then (call (set_signal_chain_offset offset) b, Some len)
    else (b, Some len)
  else if has wb 0 "S" && has wb 1 "C" && has wb 2 "A" && has wb 3 ":" then
    let gain := atof libc (str_at wb 4) in
    if between f1_0 f7000 gain
    then (call (set_signal_chain_amplification gain) b, Some len)
    else (b, Some len)
  else if has wb 0 "I" && has wb 1 "D" && has wb 2 "D" && has wb 3 "S" then
    (call (start_dds 1000) b, Some len)
  else if has wb 0 "D" && has wb 1 "D" && has wb 2 "S" && has wb 3 "O" && has wb 4 "F"
          && has wb 5 "F" then
    (call dds_sleep b, Some len)
  else if has wb 0 "O" && has wb 1 "N" then
    (call power_up (set_on_received true b), Some len)
  else if has wb 0 "S" && has wb 1 "T" && has wb 2 "A" && has wb 3 "R" && has wb 4 "T" then
    (set_start_received true b, Some len)
  else if has wb 0 "O" && has wb 1 "F" && has wb 2 "F" then
    (call power_down b, Some len)
  else (b, None).

(** The two stores that open [write_custom_value]: the copy of the [len]
    incoming bytes and the terminator at index [len]. *)
Definition receive (wb buf : list ascii) : result (list ascii) :=
  wb1 ← memcpy wb buf;
  store wb1 (Z.of_nat (length buf)) NUL.

(** [write_custom_value(conn, attr, buf, len, offset, flags)], [buf]
    being the [len] bytes written by the peer. *)
Definition write_custom_value (buf : list ascii) (b : ble_state)
  : result (ble_state * option Z) :=
  wb ← receive (write_buffer b) buf;
  Ok (dispatch (Z.of_nat (length buf)) (set_write_buffer wb b)).

End WithPlatform.

(** [adc_ccc_cfg_changed] / [cccd_cfg_changed], [connected],
    [disconnected]. *)
Definition BT_GATT_CCC_NOTIFY : Z := 1.

Definition cccd_cfg_changed (value : Z) (b : ble_state) : ble_state :=
  set_link (ble_connected b) (value =? BT_GATT_CCC_NOTIFY) b.

Definition connected (err : Z) (b : ble_state) : ble_state :=
  if err =? 0 then set_link true (notify_enabled b) b else b.

Definition disconnected (b : ble_state) : ble_state := set_link false false b.

(** [ble_send_adc_chunk(data, len)]: the entry is logged; without a
    connected and subscribed peer the chunk is dropped; otherwise the first
    [len] bytes go to [bt_gatt_notify], whose return code only selects a
    warning line. *)
Definition ble_send_adc_chunk (data : list Z) (len : Z) (b : ble_state) : ble_state :=
  let b := log_chunk (take (Z.to_nat len) data) b in
  if negb (ble_connected b) || negb (notify_enabled b) then b
  else bt_gatt_notify (take (Z.to_nat len) data) b.

Definition ble_start_received (b : ble_state) : bool := start_received b.
Definition ble_on_received (b : ble_state) : bool := on_received b.

End Bluetooth.

(** ** adc.c *)

Module Adc.

Definition ADC_SAMPLE_RATE_HZ : Z := 3000.
Definition SAADC_BUFFER_SIZE : Z := 3000.
Definition SAMPLES_PER_NOTIFY : Z := 40.

(** [#define SAADC_INTERVAL_US (1000000 / ADC_SAMPLE_RATE_HZ)]: a division
    of two [int] constants, which truncates. *)
Definition SAADC_INTERVAL_US : Z := 1000000 ÷ ADC_SAMPLE_RATE_HZ.

Definition INT16_MIN : Z := -32768.
Definition INT16_MAX : Z := 32767.

Definition int16 (z : Z) : Prop := INT16_MIN <= z <= INT16_MAX.

(** The cast [(int16_t) z]. *)
Definition to_int16 (z : Z) : Z := (z + 32768) mod 65536 - 32768.

Inductive nrfx_err_t := NRFX_SUCCESS | NRFX_ERROR.

Inductive nrfx_saadc_evt_type_t :=
| NRFX_SAADC_EVT_DONE
| NRFX_SAADC_EVT_LIMIT
| NRFX_SAADC_EVT_CALIBRATEDONE
| NRFX_SAADC_EVT_BUF_REQ
| NRFX_SAADC_EVT_READY
| NRFX_SAADC_EVT_FINISHED.

(** An event: its type and, for DONE, the completed block
    ([data.done.p_buffer], whose [data.done.size] samples are the list). *)
Record nrfx_saadc_evt_t := {
  type : nrfx_saadc_evt_type_t;
  p_buffer : list Z }.

Definition size (p_event : nrfx_saadc_evt_t) : Z := Z.of_nat (length (p_buffer p_event)).

(** Lines written by the handler. *)
Inductive output :=
| LogFilled (n : Z)
| LogStats (average min max : Z)
| RttWrite (samples : list Z)
| LogBufferSetError
| LogUnhandled (t : nrfx_saadc_evt_type_t).

Record adc_state := {
  g_ble_buf : list Z;            (* int16_t [SAADC_BUFFER_SIZE] *)
  g_ble_len : Z;                 (* size_t *)
  work_pending : bool;           (* saadc_ble_work is submitted *)
  saadc_current_buffer : Z;      (* uint32_t *)
  assigned : list Z;             (* driver: blocks handed over, oldest first *)
  timer_enabled : bool;
  timer_compare_us : option Z;   (* interval given for compare channel 0 *)
  outputs : list output }.

Definition init_state : adc_state := {|
  g_ble_buf := replicate (Z.to_nat SAADC_BUFFER_SIZE) 0;
  g_ble_len := 0;
  work_pending := false;
  saadc_current_buffer := 0;
  assigned := [];
  timer_enabled := false;
  timer_compare_us := None;
  outputs := [] |}.

Definition set_staging (buf : list Z) (len : Z) (a : adc_state) : adc_state :=
  {| g_ble_buf := buf; g_ble_len := len; work_pending := work_pending a;
     saadc_current_buffer := saadc_current_buffer a; assigned := assigned a;
     timer_enabled := timer_enabled a; timer_compare_us := timer_compare_us a;
     outputs := outputs a |}.

Definition set_work_pending (p : bool) (a : adc_state) : adc_state :=
  {| g_ble_buf := g_ble_buf a; g_ble_len := g_ble_len a; work_pending := p;
     saadc_current_buffer := saadc_current_buffer a; assigned := assigned a;
     timer_enabled := timer_enabled a; timer_compare_us := timer_compare_us a;
     outputs := outputs a |}.

Definition set_current_buffer (c : Z) (a : adc_state) : adc_state :=
  {| g_ble_buf := g_ble_buf a; g_ble_len := g_ble_len a; work_pending := work_pending a;
     saadc_current_buffer := c; assigned := assigned a;
     timer_enabled := timer_enabled a; timer_compare_us := timer_compare_us a;
     outputs := outputs a |}.

Definition set_assigned (q : list Z) (a : adc_state) : adc_state :=
  {| g_ble_buf := g_ble_buf a; g_ble_len := g_ble_len a; work_pending := work_pending a;
     saadc_current_buffer := saadc_current_buffer a; assigned := q;
     timer_enabled := timer_enabled a; timer_compare_us := timer_compare_us a;
     outputs := outputs a |}.

Definition set_timer (enabled : bool) (interval : option Z) (a : adc_state) : adc_state :=
  {| g_ble_buf := g_ble_buf a; g_ble_len := g_ble_len a; work_pending := work_pending a;
     saadc_current_buffer := saadc_current_buffer a; assigned := assigned a;
     timer_enabled := enabled; timer_compare_us := interval;
     outputs := outputs a |}.

Definition put (o : output) (a : adc_state) : adc_state :=
  {| g_ble_buf := g_ble_buf a; g_ble_len := g_ble_len a; work_pending := work_pending a;
     saadc_current_buffer := saadc_current_buffer a; assigned := assigned a;
     timer_enabled := timer_enabled a; timer_compare_us := timer_compare_us a;
     outputs := outputs a ++ [o] |}.

(** *** The drivers, as far as the file relies on them *)

(** Modelled from the spec: the SAADC driver's [nrfx_saadc_buffer_set],
    which is not part of the repository.  The converter takes the blocks it
    is given in the order of the calls and completes them in that order
    (the spec, section 5: it never signals DONE on a block that was not
    assigned).  [block] is the index into [saadc_sample_buffer]. *)
Definition nrfx_saadc_buffer_set (block : Z) (a : adc_state) : nrfx_err_t * adc_state :=
  (NRFX_SUCCESS, set_assigned (assigned a ++ [block]) a).

(** Modelled from the spec: the completion of the oldest assigned block,
    which the driver reports with a DONE event; [None] when no block is
    assigned. *)
Definition nrfx_saadc_complete (a : adc_state) : option (Z * adc_state) :=
  match assigned a with
  | [] => None
  | block :: q => Some (block, set_assigned q a)
  end.

Definition nrfx_timer_enable (a : adc_state) : adc_state :=
  set_timer true (timer_compare_us a) a.

(** [k_work_submit(&saadc_ble_work)]: submitting an item that is already
    pending changes nothing. *)
Definition k_work_submit (a : adc_state) : adc_state := set_work_pending true a.

(** *** saadc_ble_work_handler *)

(** One pass of the inner [for]: sample [idx + i] into [payload[2i]],
    [payload[2i+1]].  The sample is promoted to [int]; [>>] on a negative
    [int] is the arithmetic shift, which is [Z.shiftr]. *)
Definition pack_sample (g_ble_buf : list Z) (idx i : Z) (payload : list Z)
  : result (list Z) :=
  sample ← load g_ble_buf (wrap32 (idx + i));
  payload ← store payload (2 * i + 0) (Z.land sample 0xFF);
  store payload (2 * i + 1) (Z.land (Z.shiftr sample 8) 0xFF).

(** The [while (idx < g_ble_len)] loop.  [payload] is declared without an
    initialiser; the model starts it at zeros, and only the bytes stored in
    the same pass are sent. *)
Fixpoint work_loop (fuel : nat) (a : adc_state) (idx : Z) (b : Bluetooth.ble_state)
  : result Bluetooth.ble_state :=
  if idx <? g_ble_len a then
    match fuel with
    | O => OutOfFuel
    | S fuel' =>
        let remaining := wrap32 (g_ble_len a - idx) in
        let chunk_samples := Z.min remaining SAMPLES_PER_NOTIFY in
        payload ← for_range (Z.to_nat chunk_samples) 0
                     (pack_sample (g_ble_buf a) idx)
                     (replicate (Z.to_nat (2 * SAMPLES_PER_NOTIFY)) 0);
        let payload_len := wrap32 (2 * chunk_samples) in
        let b' := Bluetooth.ble_send_adc_chunk payload payload_len b in
        work_loop fuel' a (wrap32 (idx + chunk_samples)) b'
    end
  else Ok b.

(** Every pass advances [idx] by at least one sample, so [g_ble_len]
    passes are a sufficient budget. *)
Definition saadc_ble_work_handler (a : adc_state) (b : Bluetooth.ble_state)
  : result Bluetooth.ble_state :=
  work_loop (Z.to_nat (g_ble_len a)) a 0 b.

(** *** configure_timer *)

(** The timer is initialised at 1 MHz ([NRFX_TIMER_DEFAULT_CONFIG(1000000)]);
    [SAADC_INTERVAL_US] is handed to [nrfx_timer_us_to_ticks] and the result
    to [nrfx_timer_extended_compare] for channel 0, cleared on compare. *)
Definition configure_timer (a : adc_state) : adc_state :=
  set_timer (timer_enabled a) (Some SAADC_INTERVAL_US) a.

(** *** saadc_event_handler *)

(** The running sum, maximum and minimum of the DONE case. *)
Definition stats (samples : list Z) : Z * Z * Z :=
  fold_left (fun '(average, max, min) current_value =>
               (average + current_value,
                if current_value >? max then current_value else max,
                if current_value <? min then current_value else min))
            samples (0, INT16_MIN, INT16_MAX).

(** The staging block of the DONE case. *)
Definition stage (buf : list Z) (n : Z) (a : adc_state) : result adc_state :=
  let n := if n >? SAADC_BUFFER_SIZE then SAADC_BUFFER_SIZE else n in
  staged ← memcpy (g_ble_buf a) (take (Z.to_nat n) buf);
  Ok (k_work_submit (set_staging staged n a)).

Definition saadc_event_handler (p_event : nrfx_saadc_evt_t) (a : adc_state)
  : result adc_state :=
  match type p_event with
  | NRFX_SAADC_EVT_READY => Ok (nrfx_timer_enable a)
  | NRFX_SAADC_EVT_BUF_REQ =>
      let block := saadc_current_buffer a mod 2 in
      let a := set_current_buffer (wrap32 (saadc_current_buffer a + 1)) a in
      let '(err, a') := nrfx_saadc_buffer_set block a in
      match err with
      | NRFX_SUCCESS => Ok a'
      | NRFX_ERROR => Ok (put LogBufferSetError a')
      end
  | NRFX_SAADC_EVT_DONE =>
      let buf := p_buffer p_event in
      let n := size p_event in
      let '(average, max, min) := stats buf in
      (* average = average/p_event->data.done.size, before anything is
         logged or staged: a division by zero when the block is empty *)
      if size p_event =? 0 then DivisionByZero else
      let average := to_int16 (average ÷ size p_event) in
      let a := put (LogFilled (size p_event)) a in
      let a := put (LogStats average min max) a in
      let a := put (RttWrite buf) a in
      stage buf n a
  | t => Ok (put (LogUnhandled t) a)
  end.

(** *** configure_saadc *)

(** The two buffer assignments of step 4.9 (the other driver calls of the
    function set up the channel and register the handler). *)
Definition configure_saadc (a : adc_state) : adc_state :=
  let '(err, a0) := nrfx_saadc_buffer_set 0 a in
  match err with
  | NRFX_ERROR => put LogBufferSetError a0
  | NRFX_SUCCESS =>
      let '(err, a1) := nrfx_saadc_buffer_set 1 a0 in
      match err with
      | NRFX_ERROR => put LogBufferSetError a1
      | NRFX_SUCCESS => a1
      end
  end.

Definition saadc_start (a : adc_state) : adc_state :=
  configure_saadc (configure_timer a).

(** *** The two execution contexts around the staging slot *)

(** The converter completes its oldest block, filled with [samples], and
    the driver calls the handler with the DONE event; the index of the
    completed block is returned with the new state. *)
Definition converter_done (samples : list Z) (a : adc_state)
  : result (option Z * adc_state) :=
  match nrfx_saadc_complete a with
  | None => Ok (None, a)
  | Some (block, a') =>
      a'' ← saadc_event_handler {| type := NRFX_SAADC_EVT_DONE; p_buffer := samples |} a';
      Ok (Some block, a'')
  end.

Definition converter_buf_req (a : adc_state) : result adc_state :=
  saadc_event_handler {| type := NRFX_SAADC_EVT_BUF_REQ; p_buffer := [] |} a.

(** The system work queue runs a pending item once. *)
Definition k_work_run (s : adc_state * Bluetooth.ble_state)
  : result (adc_state * Bluetooth.ble_state) :=
  let '(a, b) := s in
  if work_pending a then
    let a := set_work_pending false a in
    b' ← saadc_ble_work_handler a b;
    Ok (a, b')
  else Ok s.

(** An operation on the staging slot: a DONE event carrying a block, or a
    run of the work queue. *)
Inductive op :=
| Done (block : list Z)
| Drain.

Definition step (o : op) (s : adc_state * Bluetooth.ble_state)
  : result (adc_state * Bluetooth.ble_state) :=
  match o with
  | Done block =>
      a' ← saadc_event_handler {| type := NRFX_SAADC_EVT_DONE; p_buffer := block |} s.1;
      Ok (a', s.2)
  | Drain => k_work_run s
  end.

Fixpoint run (ops : list op) (s : adc_state * Bluetooth.ble_state)
  : result (adc_state * Bluetooth.ble_state) :=
  match ops with
  | [] => Ok s
  | o :: ops' => s' ← step o s; run ops' s'
  end.

(** *** The converter as a source of events *)

(** The DONE event of a completed block. *)
Definition done_evt (block : list Z) : nrfx_saadc_evt_t :=
  {| type := NRFX_SAADC_EVT_DONE; p_buffer := block |}.

(** What the converter raises once it runs: a request for its next block,
    or the completion of its oldest block, filled with [samples]. *)
Inductive converter_event :=
| BufferRequest
| BlockDone (samples : list Z).

(** The handler driven by a sequence of converter events; the result lists
    the indices of the blocks reported complete, in order. *)
Fixpoint converter_run (evts : list converter_event) (a : adc_state)
  : result (list Z * adc_state) :=
  match evts with
  | [] => Ok ([], a)
  | BufferRequest :: evts' =>
      a' ← converter_buf_req a; converter_run evts' a'
  | BlockDone samples :: evts' =>
      r ← converter_done samples a;
      r' ← converter_run evts' r.2;
      Ok (match r.1 with
          | Some block => block :: r'.1
          | None => r'.1
          end, r'.2)
  end.

(** One converter cycle: the request for the next block, then the
    completion of a block. *)
Definition cycle (samples : list Z) : list converter_event :=
  [BufferRequest; BlockDone samples].

End Adc.

(** ** main.c *)

Module Main.

Definition CR : ascii := "013"%char.

Record main_state := {
  command_buffer : list ascii;     (* char [32] *)
  cmd_index : Z;
  start_received : bool;
  on_recieved : bool }.

Definition init_state : main_state := {|
  command_buffer := replicate 32 Bluetooth.NUL;
  cmd_index := 0;
  start_received := false;
  on_recieved := false |}.

(** An event of the serial driver.  RX_RDY carries the character the
    callback reads, [evt->data.rx.buf[evt->data.rx.offset]]. *)
Inductive uart_event :=
| UART_RX_RDY (received_char : ascii)
| UART_RX_DISABLED
| UART_OTHER.

(** The characters the callback keeps. *)
Definition valid_char (c : ascii) : bool :=
  let n := Bluetooth.code c in
  ((Bluetooth.code "0" <=? n) && (n <=? Bluetooth.code "9"))
  || Ascii.eqb c ":" || Ascii.eqb c "-"
  || ((Bluetooth.code "A" <=? n) && (n <=? Bluetooth.code "Z"))
  || Ascii.eqb c CR || Ascii.eqb c ".".

(** [strcmp(command_buffer, word) == 0]. *)
Definition strcmp_eq (buffer : list ascii) (word : string) : bool :=
  String.eqb (string_of_list_ascii (Bluetooth.c_str buffer)) word.

Definition uart_cb (evt : uart_event) (m : main_state) : result main_state :=
  match evt with
  | UART_RX_RDY received_char =>
      if valid_char received_char then
        (* command_buffer[cmd_index++] = received_char *)
        cb ← store (command_buffer m) (cmd_index m) received_char;
        let index := cmd_index m + 1 in
        if Ascii.eqb received_char CR then
          cb ← store cb (index - 1) Bluetooth.NUL;
          if strcmp_eq cb "START" then
            Ok {| command_buffer := cb; cmd_index := 0;
                  start_received := true; on_recieved := on_recieved m |}
          else if strcmp_eq cb "ON" then
            Ok {| command_buffer := cb; cmd_index := 0;
                  start_received := start_received m; on_recieved := true |}
          else
            Ok {| command_buffer := cb; cmd_index := 0;
                  start_received := start_received m; on_recieved := on_recieved m |}
        else
          Ok {| command_buffer := cb; cmd_index := index;
                start_received := start_received m; on_recieved := on_recieved m |}
      else
        Ok {| command_buffer := command_buffer m; cmd_index := 0;
              start_received := start_received m; on_recieved := on_recieved m |}
  | UART_RX_DISABLED => Ok m      (* uart_rx_enable: reception is re-armed *)
  | UART_OTHER => Ok m
  end.

(** Where the main thread stands.  The statement
    [on_recieved = ble_on_received();] is a call followed by a store: the
    value the call returned is held by the thread in between. *)
Inductive pc :=
| WaitOn_test                   (* while (!on_recieved) *)
| WaitOn_call                   (* ble_on_received() *)
| WaitOn_store (returned : bool)(* on_recieved = <returned> *)
| WaitOn_sleep                  (* k_msleep(10); if (on_recieved) LOG_INF *)
| PowerUp                       (* gpio_init ... config_default_settings *)
| WaitStart_test                (* while (!start_received) *)
| WaitStart_call                (* ble_start_received() *)
| WaitStart_store (returned : bool)
| WaitStart_sleep               (* k_msleep(10) *)
| Running.                      (* thread created; while (1) k_msleep(1000) *)

Record system := {
  main : main_state;
  ble : Bluetooth.ble_state;
  at_pc : pc }.

Definition init : system :=
  {| main := init_state; ble := Bluetooth.init_state; at_pc := WaitOn_test |}.

Definition set_on_recieved (v : bool) (m : main_state) : main_state :=
  {| command_buffer := command_buffer m; cmd_index := cmd_index m;
     start_received := start_received m; on_recieved := v |}.

Definition set_start_received (v : bool) (m : main_state) : main_state :=
  {| command_buffer := command_buffer m; cmd_index := cmd_index m;
     start_received := v; on_recieved := on_recieved m |}.

(** One step of the main thread through [wait_for_on_command], the
    initialisation, and [wait_for_start_command]. *)
Definition main_step (s : system) : system :=
  let goto p := {| main := main s; ble := ble s; at_pc := p |} in
  match at_pc s with
  | WaitOn_test => if on_recieved (main s) then goto PowerUp else goto WaitOn_call
  | WaitOn_call => goto (WaitOn_store (Bluetooth.ble_on_received (ble s)))
  | WaitOn_store returned =>
      {| main := set_on_recieved returned (main s); ble := ble s; at_pc := WaitOn_sleep |}
  | WaitOn_sleep => goto WaitOn_test
  | PowerUp => goto WaitStart_test
  | WaitStart_test =>
      if start_received (main s) then goto Running else goto WaitStart_call
  | WaitStart_call => goto (WaitStart_store (Bluetooth.ble_start_received (ble s)))
  | WaitStart_store returned =>
      {| main := set_start_received returned (main s); ble := ble s;
         at_pc := WaitStart_sleep |}
  | WaitStart_sleep => goto WaitStart_test
  | Running => goto Running
  end.

(** What can run next: the main thread for one step, the serial callback
    for one event, or the wireless write callback for one write. *)
Inductive action :=
| MainThread
| Serial (evt : uart_event)
| Wireless (buf : list ascii).

Section WithPlatform.

Variable libc : Bluetooth.platform.

Definition step (act : action) (s : system) : result system :=
  match act with
  | MainThread => Ok (main_step s)
  | Serial evt =>
      m ← uart_cb evt (main s);
      Ok {| main := m; ble := ble s; at_pc := at_pc s |}
  | Wireless buf =>
      r ← Bluetooth.write_custom_value libc buf (ble s);
      Ok {| main := main s; ble := r.1; at_pc := at_pc s |}
  end.

(** An interleaving is a list of actions. *)
Fixpoint run (acts : list action) (s : system) : result system :=
  match acts with
  | [] => Ok s
  | act :: acts' => s' ← step act s; run acts' s'
  end.

End WithPlatform.

End Main.

(** ** A C library for the examples *)

(** The numerals the examples use are plain decimals, [sign] digits [.
    digits].  With at most 15 significant digits the digits read as an
    integer, and the power of ten that scales them, are both doubles, and
    their correctly rounded quotient is the double nearest to the numeral,
    which is what [atof] returns. *)
Module Libc.

Definition isdigit (c : ascii) : bool :=
  (Bluetooth.code "0" <=? Bluetooth.code c) && (Bluetooth.code c <=? Bluetooth.code "9").

Definition isspace (c : ascii) : bool :=
  Ascii.eqb c " " || ((9 <=? Bluetooth.code c) && (Bluetooth.code c <=? 13)).

Fixpoint skip_space (l : list ascii) : list ascii :=
  match l with
  | c :: l' => if isspace c then skip_space l' else l
  | [] => []
  end.

Definition read_sign (l : list ascii) : bool * list ascii :=
  match l with
  | c :: l' => if Ascii.eqb c "-" then (true, l')
               else if Ascii.eqb c "+" then (false, l')
               else (false, l)
  | [] => (false, [])
  end.

(** Digits read onto [acc]; also their number and what follows them. *)
Fixpoint read_digits (l : list ascii) (acc count : Z) : Z * Z * list ascii :=
  match l with
  | c :: l' =>
      if isdigit c
      then read_digits l' (10 * acc + (Bluetooth.code c - Bluetooth.code "0")) (count + 1)
      else (acc, count, l)
  | [] => (acc, count, [])
  end.

Definition atoi (s : list ascii) : Z :=
  let '(neg, l) := read_sign (skip_space s) in
  let '(v, _, _) := read_digits l 0 0 in
  if neg then - v else v.

Definition double_of_Z (z : Z) : float := PrimFloat.of_uint63 (Uint63.of_Z z).

Definition atof (s : list ascii) : float :=
  let '(neg, l) := read_sign (skip_space s) in
  let '(int_part, _, l) := read_digits l 0 0 in
  let '(mantissa, scale) :=
    match l with
    | c :: l' => if Ascii.eqb c "."
                 then let '(m, k, _) := read_digits l' int_part 0 in (m, k)
                 else (int_part, 0)
    | [] => (int_part, 0)
    end in
  let x := PrimFloat.div (double_of_Z mantissa) (double_of_Z (10 ^ scale)) in
  if neg then PrimFloat.opp x else x.

(** The library of the examples; the two amplification limits stand for
    the values of [dds.h], on which no statement below depends. *)
Definition decimal : Bluetooth.platform := {|
  Bluetooth.atoi := atoi;
  Bluetooth.atof := atof;
  Bluetooth.MIN_DDS_AMPLIFICATION := (-10)%float;
  Bluetooth.MAX_DDS_AMPLIFICATION := 10%float |}.

End Libc.

(** * Vocabulary of the statements *)

(** A command as the bytes of a write. *)
Definition bytes (s : string) : list ascii := list_ascii_of_string s.

(** The receive buffer after a write of at most 19 bytes: the bytes, the
    terminator, and what the buffer held beyond them. *)
Definition received (wb buf : list ascii) : list ascii :=
  buf ++ Bluetooth.NUL :: drop (S (length buf)) wb.

(** The prefix tests of [write_custom_value], in its order: a buffer is
    recognised when one of the thirteen branches takes it. *)
Definition recognized (wb : list ascii) : bool :=
  let at0 := Bluetooth.has wb 0 in
  let at1 := Bluetooth.has wb 1 in
  let at2 := Bluetooth.has wb 2 in
  let at3 := Bluetooth.has wb 3 in
  let at4 := Bluetooth.has wb 4 in
  let at5 := Bluetooth.has wb 5 in
  let digit := Bluetooth.code (Bluetooth.at_ wb 2) in
  (at0 "S" && at1 "D" && at2 "D" && at3 "S" && at4 ":")%char
  || (at0 "D" && at1 "D" && at2 "S" && at3 "A" && at4 ":")%char
  || (at0 "D" && at1 "D" && at2 "S" && at3 "O" && at4 ":")%char
  || (at0 "P" && at2 ":")%char
  || (at0 "D" && at2 ":")%char
  || ((at0 "M" && at1 ":")%char
      && (Bluetooth.code "0" <=? digit) && (digit <=? Bluetooth.code "7"))
  || (at0 "S" && at1 "C" && at2 "O" && at3 ":")%char
  || (at0 "S" && at1 "C" && at2 "A" && at3 ":")%char
  || (at0 "I" && at1 "D" && at2 "D" && at3 "S")%char
  || (at0 "D" && at1 "D" && at2 "S" && at3 "O" && at4 "F" && at5 "F")%char
  || (at0 "O" && at1 "N")%char
  || (at0 "S" && at1 "T" && at2 "A" && at3 "R" && at4 "T")%char
  || (at0 "O" && at1 "F" && at2 "F")%char.

(** The two observers of the gate, on the flags the code keeps: main.c's
    own flag, which the serial callback sets and the wait loop tests, and
    the wireless flag behind [ble_on_received] / [ble_start_received].  A
    request counts when either flag holds it. *)
Definition power_requested (s : Main.system) : bool :=
  Main.on_recieved (Main.main s) || Bluetooth.ble_on_received (Main.ble s).

Definition start_requested (s : Main.system) : bool :=
  Main.start_received (Main.main s) || Bluetooth.ble_start_received (Main.ble s).

(** A line typed on the serial channel: its characters, then the carriage
    return, one receive event each. *)
Definition typed (line : string) : list Main.action :=
  map (fun c => Main.Serial (Main.UART_RX_RDY c)) (bytes line ++ [Main.CR]).

(** The main thread polls, and the serial line completes between the call
    [ble_on_received()] and the store of its result. *)
Definition on_interleaving : list Main.action :=
  [Main.MainThread; Main.MainThread] ++ typed "ON".

(** ON is taken; the main thread is then inside the START loop, and the
    serial line completes between its call and its store. *)
Definition start_interleaving : list Main.action :=
  typed "ON" ++ [Main.MainThread; Main.MainThread; Main.MainThread; Main.MainThread]
  ++ typed "START".

(** The two bytes the loop stores for a sample, and their reading back as a
    signed 16-bit little-endian value. *)
Definition le16 (sample : Z) : list Z :=
  [Z.land sample 0xFF; Z.land (Z.shiftr sample 8) 0xFF].

Definition encode (samples : list Z) : list Z := concat (map le16 samples).

Fixpoint decode (payload : list Z) : list Z :=
  match payload with
  | lo :: hi :: rest => Adc.to_int16 (lo + 256 * hi) :: decode rest
  | _ => []
  end.

(** What [ble_send_adc_chunk] does with the bytes it is given. *)
Definition deliver (b : Bluetooth.ble_state) (chunk : list Z) : Bluetooth.ble_state :=
  Bluetooth.ble_send_adc_chunk chunk (Z.of_nat (length chunk)) b.

Definition subscribed (b : Bluetooth.ble_state) : bool :=
  Bluetooth.ble_connected b && Bluetooth.notify_enabled b.

(** The staging slot is in range: the array has its declared length and the
    length field does not exceed it. *)
Definition slot_ok (a : Adc.adc_state) : Prop :=
  length (Adc.g_ble_buf a) = Z.to_nat Adc.SAADC_BUFFER_SIZE
  /\ 0 <= Adc.g_ble_len a <= Adc.SAADC_BUFFER_SIZE.

(** The number of samples a DONE event stages: [min(length, capacity)]. *)
Definition staged_len (block : list Z) : nat :=
  Nat.min (length block) (Z.to_nat Adc.SAADC_BUFFER_SIZE).

(** The round-robin order over two blocks, from position [from] on:
    [from mod 2, (from + 1) mod 2, ...]. *)
Definition rotation (from count : nat) : list Z :=
  map (fun k => Z.of_nat (from + k) `mod` 2) (seq 0 count).

(** A block of [n] distinct samples, negative and positive, and the slot
    that holds a block of 100 of them. *)
Definition ramp (n : nat) : list Z := map (fun i => 7 * Z.of_nat i - 300) (seq 0 n).

Definition staged_100 : Adc.adc_state :=
  Adc.set_staging (ramp 100 ++ replicate 2900 0) 100 Adc.init_state.

(** ** Sequences of calls *)

(** The event handler called on a sequence of converter events. *)
Fixpoint handle_events (evts : list Adc.nrfx_saadc_evt_t) (a : Adc.adc_state)
  : result Adc.adc_state :=
  match evts with
  | [] => Ok a
  | evt :: evts' => a' ← Adc.saadc_event_handler evt a; handle_events evts' a'
  end.

(** An event that carries no block. *)
Definition plain_evt (t : Adc.nrfx_saadc_evt_type_t) : Adc.nrfx_saadc_evt_t :=
  {| Adc.type := t; Adc.p_buffer := [] |}.

Definition is_type (t : Adc.nrfx_saadc_evt_type_t) (evt : Adc.nrfx_saadc_evt_t) : bool :=
  match t, Adc.type evt with
  | Adc.NRFX_SAADC_EVT_DONE, Adc.NRFX_SAADC_EVT_DONE
  | Adc.NRFX_SAADC_EVT_LIMIT, Adc.NRFX_SAADC_EVT_LIMIT
  | Adc.NRFX_SAADC_EVT_CALIBRATEDONE, Adc.NRFX_SAADC_EVT_CALIBRATEDONE
  | Adc.NRFX_SAADC_EVT_BUF_REQ, Adc.NRFX_SAADC_EVT_BUF_REQ
  | Adc.NRFX_SAADC_EVT_READY, Adc.NRFX_SAADC_EVT_READY
  | Adc.NRFX_SAADC_EVT_FINISHED, Adc.NRFX_SAADC_EVT_FINISHED => true
  | _, _ => false
  end.

(** The sum of a block. *)
Definition total (samples : list Z) : Z := fold_right Z.add 0 samples.

(** The serial callback called on a sequence of events, and the events of
    characters received one by one. *)
Fixpoint uart_run (evts : list Main.uart_event) (m : Main.main_state)
  : result Main.main_state :=
  match evts with
  | [] => Ok m
  | evt :: evts' => m' ← Main.uart_cb evt m; uart_run evts' m'
  end.

Definition keyed (chars : list ascii) : list Main.uart_event :=
  map Main.UART_RX_RDY chars.

(** A character the serial callback keeps and that does not end a line. *)
Definition line_char (c : ascii) : bool :=
  Main.valid_char c && negb (Ascii.eqb c Main.CR).

(** The main thread is inside [wait_for_on_command]. *)
Definition waiting_for_on (p : Main.pc) : bool :=
  match p with
  | Main.WaitOn_test | Main.WaitOn_call | Main.WaitOn_store _ | Main.WaitOn_sleep => true
  | _ => false
  end.


(** The main-thread steps of an interleaving. *)
Fixpoint main_thread_steps (acts : list Main.action) : nat :=
  match acts with
  | [] => 0
  | Main.MainThread :: acts' => S (main_thread_steps acts')
  | _ :: acts' => main_thread_steps acts'
  end.

(** With the wireless flag set, the main-thread steps that
    [wait_for_on_command] / [wait_for_start_command] can still take: the
    test leaves the loop when main.c's own flag is set; otherwise the
    loop calls, stores, sleeps and tests again, and a result [false]
    fetched before the flag was set has to be stored first. *)
Definition on_distance (s : Main.system) : nat :=
  let at_test := if Main.on_recieved (Main.main s) then 1%nat else 5%nat in
  match Main.at_pc s with
  | Main.WaitOn_test => at_test
  | Main.WaitOn_call => 4
  | Main.WaitOn_store true => 3
  | Main.WaitOn_store false => 7
  | Main.WaitOn_sleep => S at_test
  | _ => 0
  end.

Definition start_distance (s : Main.system) : nat :=
  let at_test := if Main.start_received (Main.main s) then 1%nat else 5%nat in
  match Main.at_pc s with
  | Main.PowerUp => S at_test
  | Main.WaitStart_test => at_test
  | Main.WaitStart_call => 4
  | Main.WaitStart_store true => 3
  | Main.WaitStart_store false => 7
  | Main.WaitStart_sleep => S at_test
  | _ => 0
  end.

(** The write callback called on a sequence of writes. *)
Fixpoint writes (libc : Bluetooth.platform) (bufs : list (list ascii))
         (b : Bluetooth.ble_state) : result Bluetooth.ble_state :=
  match bufs with
  | [] => Ok b
  | buf :: bufs' => r ← Bluetooth.write_custom_value libc buf b; writes libc bufs' r.1
  end.

(** The range test in front of each call of a peripheral routine in
    [write_custom_value] ([changeDDSVal] takes a [uint16_t], [start_dds] is
    called with 1000), and the ranges of the four stored settings. *)
Definition in_range (libc : Bluetooth.platform) (c : Bluetooth.peripheral_call) : bool :=
  match c with
  | Bluetooth.changeDDSVal val => (0 <=? val) && (val <? 2 ^ 16)
  | Bluetooth.set_dds_amplification amplification =>
      Bluetooth.between (Bluetooth.MIN_DDS_AMPLIFICATION libc)
                        (Bluetooth.MAX_DDS_AMPLIFICATION libc) amplification
  | Bluetooth.set_dds_offset offset
  | Bluetooth.set_signal_chain_offset offset =>
      Bluetooth.between (- Bluetooth.f3_3) Bluetooth.f3_3 offset
  | Bluetooth.configure_pga number setting =>
      (1 <=? number) && (number <=? 2) && (0 <=? setting) && (setting <=? 7)
  | Bluetooth.digipot_wiper_set channel value =>
      (0 <=? channel) && (channel <=? 3) && (0 <=? value) && (value <=? 255)
  | Bluetooth.set_mux setting => (0 <=? setting) && (setting <=? 7)
  | Bluetooth.set_signal_chain_amplification gain =>
      Bluetooth.between Bluetooth.f1_0 Bluetooth.f7000 gain
  | Bluetooth.start_dds hz => hz =? 1000
  | Bluetooth.dds_sleep | Bluetooth.power_up | Bluetooth.power_down => true
  end.

Definition settings_in_range (b : Bluetooth.ble_state) : bool :=
  (0 <=? Bluetooth.digipot_channel b) && (Bluetooth.digipot_channel b <=? 3)
  && (0 <=? Bluetooth.digipot_setting b) && (Bluetooth.digipot_setting b <=? 255)
  && (0 <=? Bluetooth.pga_number b) && (Bluetooth.pga_number b <=? 2)
  && (0 <=? Bluetooth.pga_setting b) && (Bluetooth.pga_setting b <=? 7).

(** The tests of the branches on a buffer whose first characters are
    given: the concrete ones are decided, [x && false] is [false]. *)
Ltac decide_tests :=
  repeat (cbn [Ascii.eqb Bool.eqb andb orb negb]; rewrite ?andb_false_r, ?andb_true_r).

(** * Properties *)

(** ** The decimal library on the numerals of the examples *)

Example atof_5 : Libc.atof (bytes "5.0") = 5%float.
Proof. reflexivity. Qed.
Example atof_m1 : Libc.atof (bytes "-1.0") = (-1)%float.
Proof. reflexivity. Qed.
Example atof_33 : Libc.atof (bytes "3.3") = Bluetooth.f3_3.
Proof. reflexivity. Qed.


(** ** Loads, stores and copies *)

Section Arrays.

Context {A : Type}.
Implicit Types (a dst src : list A) (x : A).

Lemma store_ok a i x :
  0 <= i < Z.of_nat (length a) -> store a i x = Ok (<[Z.to_nat i := x]> a).
Proof.
  intros [H0 H1]. unfold store.
  apply Z.leb_le in H0. apply Z.ltb_lt in H1. by rewrite H0, H1.
Qed.

Lemma store_oob a i x :
  Z.of_nat (length a) <= i -> store a i x = OutOfBounds.
Proof.
  intros H. unfold store.
  replace (i <? Z.of_nat (length a)) with false; [by rewrite andb_false_r|].
  symmetry. by apply Z.ltb_ge.
Qed.

Lemma load_ok a i x :
  0 <= i -> a !! Z.to_nat i = Some x -> load a i = Ok x.
Proof.
  intros H0 Hx. unfold load.
  apply lookup_lt_Some in Hx as Hlt.
  replace (0 <=? i) with true by (symmetry; by apply Z.leb_le).
  replace (i <? Z.of_nat (length a)) with true by (symmetry; apply Z.ltb_lt; lia).
  by rewrite Hx.
Qed.

Lemma memcpy_from_ok src : forall dst (p : nat),
  (p + length src <= length dst)%nat ->
  memcpy_from dst (Z.of_nat p) src
  = Ok (take p dst ++ src ++ drop (p + length src) dst).
Proof.
  induction src as [|x src IH]; intros dst p Hlen; simpl in *.
  - by rewrite Nat.add_0_r, take_drop.
  - rewrite store_ok by lia. rewrite Nat2Z.id. simpl.
    replace (Z.of_nat p + 1) with (Z.of_nat (S p)) by lia.
    rewrite IH by (rewrite length_insert; lia).
    rewrite (take_S_r _ p x) by (apply list_lookup_insert_eq; lia).
    rewrite take_insert_ge by lia.
    rewrite drop_insert_lt by lia.
    rewrite <- app_assoc. simpl.
    by rewrite Nat.add_succ_r.
Qed.

Lemma memcpy_ok dst src :
  (length src <= length dst)%nat ->
  memcpy dst src = Ok (src ++ drop (length src) dst).
Proof.
  intros H. unfold memcpy. change 0 with (Z.of_nat 0).
  by rewrite memcpy_from_ok.
Qed.

End Arrays.

(** ** The timer interval *)

(** C8, as stated, fails: at 3000 Hz the programmed interval, 333, is not
    the exact quotient of 1,000,000 by the rate (which is 333 + 1/3): as a
    rational it differs from 1,000,000 / 3000, and multiplied back by the
    rate it gives 999,000. *)
Lemma interval_is_not_the_exact_quotient :
  ~ (inject_Z Adc.SAADC_INTERVAL_US == 1000000 / inject_Z Adc.ADC_SAMPLE_RATE_HZ)%Q
  /\ Adc.SAADC_INTERVAL_US * Adc.ADC_SAMPLE_RATE_HZ = 999000.
Proof.
  split; [|reflexivity].
  intros H. vm_compute in H. discriminate H.
Qed.

(** C8, amended: the interval is the truncated quotient, 333 microseconds,
    that is the largest whole number of microseconds whose multiple by the
    rate stays within 1,000,000; [configure_timer] gives that interval for
    compare channel 0 of the timer. *)
Theorem interval_is_the_truncated_quotient (a : Adc.adc_state) :
  Adc.SAADC_INTERVAL_US = 333
  /\ Adc.SAADC_INTERVAL_US = 1000000 `div` Adc.ADC_SAMPLE_RATE_HZ
  /\ Adc.SAADC_INTERVAL_US * Adc.ADC_SAMPLE_RATE_HZ <= 1000000
      < (Adc.SAADC_INTERVAL_US + 1) * Adc.ADC_SAMPLE_RATE_HZ
  /\ Adc.timer_compare_us (Adc.configure_timer a) = Some Adc.SAADC_INTERVAL_US
  /\ Adc.timer_compare_us (Adc.saadc_start a) = Some Adc.SAADC_INTERVAL_US.
Proof.
  repeat split; try reflexivity; vm_compute; congruence.
Qed.

(** ** The wireless write callback *)

Section WriteCallback.

Import Bluetooth.

Variable libc : platform.

Lemma c_str_terminated (s rest : list ascii) :
  c_str (s ++ NUL :: rest) = c_str s.
Proof.
  induction s as [|c s IH]; simpl; [done|].
  destruct (Ascii.eqb c NUL); [done|]. by rewrite IH.
Qed.

Lemma receive_ok (wb buf : list ascii) :
  length wb = 20%nat -> (length buf <= 19)%nat ->
  receive wb buf = Ok (received wb buf).
Proof.
  intros Hwb Hbuf. unfold receive, received.
  rewrite memcpy_ok by lia. simpl.
  rewrite store_ok by (rewrite length_app, length_drop; lia).
  rewrite Nat2Z.id. f_equal.
  rewrite <- (Nat.add_0_r (length buf)) at 1.
  rewrite insert_app_r.
  destruct (drop (length buf) wb) as [|c rest] eqn:Hd.
  - apply (f_equal length) in Hd. rewrite length_drop in Hd. simpl in Hd. lia.
  - simpl. f_equal. f_equal.
    change (S (length buf)) with (1 + length buf)%nat.
    rewrite Nat.add_comm, <- drop_drop, Hd. done.
Qed.

(** With 20 bytes the copy fits and the terminator does not. *)
Lemma receive_20 (wb buf : list ascii) :
  length wb = 20%nat -> length buf = 20%nat ->
  memcpy wb buf = Ok buf /\ receive wb buf = OutOfBounds.
Proof.
  intros Hwb Hbuf. unfold receive.
  rewrite memcpy_ok by lia.
  rewrite drop_ge by lia. rewrite app_nil_r. split; [done|]. simpl.
  apply store_oob. lia.
Qed.

(** A branch that is taken returns [len]; when none is taken nothing is
    returned and nothing else has changed. *)
Lemma dispatch_returns (len : Z) (b : ble_state) (r : Z) :
  (dispatch libc len b).2 = Some r -> r = len.
Proof.
  unfold dispatch.
  repeat (match goal with |- context [if ?c then _ else _] => destruct c end);
    simpl; congruence.
Qed.

Lemma dispatch_unrecognized (len : Z) (b : ble_state) :
  (dispatch libc len b).2 = None -> (dispatch libc len b).1 = b.
Proof.
  unfold dispatch.
  repeat (match goal with |- context [if ?c then _ else _] => destruct c end);
    simpl; congruence.
Qed.

(** The wireless flags are only ever set. *)
Lemma dispatch_flags_kept (len : Z) (b : ble_state) :
  (on_received b = true -> on_received (dispatch libc len b).1 = true)
  /\ (start_received b = true -> start_received (dispatch libc len b).1 = true).
Proof.
  unfold dispatch.
  repeat (match goal with |- context [if ?c then _ else _] => destruct c end);
    simpl; auto.
Qed.


End WriteCallback.



(** C7, the code on a write of at most 19 bytes.  When one of the branches
    takes the buffer, the length is returned.  When none does, the receive
    buffer is filled, nothing else changes, and control leaves the function
    at its closing brace, where there is no [return]: no length is
    returned. *)
Theorem unrecognized_write_returns_nothing
        (libc : Bluetooth.platform) (buf : list ascii) (b : Bluetooth.ble_state) :
  length (Bluetooth.write_buffer b) = 20%nat ->
  (length buf <= 19)%nat ->
  let wb := received (Bluetooth.write_buffer b) buf in
  (recognized wb = true ->
   exists b', Bluetooth.write_custom_value libc buf b
              = Ok (b', Some (Z.of_nat (length buf))))
  /\ (recognized wb = false ->
      Bluetooth.write_custom_value libc buf b
      = Ok (Bluetooth.set_write_buffer wb b, None)).
Proof.
  intros Hwb Hbuf wb.
  unfold Bluetooth.write_custom_value. rewrite receive_ok by done.
  cbn [mbind result_bind]. fold wb.
  unfold Bluetooth.dispatch, recognized. cbv zeta.
  cbn [Bluetooth.write_buffer Bluetooth.set_write_buffer].
  repeat (match goal with
          | |- context [if ?c then _ else _] => destruct c; cbn [orb andb]
          end);
    split; intros H; try discriminate H; try reflexivity; eexists; reflexivity.
Qed.

(** C7 on [HELLO], which no branch takes, from the start-up state. *)
Lemma unrecognized_write_returns_nothing_witness :
  Bluetooth.write_custom_value Libc.decimal (bytes "HELLO") Bluetooth.init_state
  = Ok (Bluetooth.set_write_buffer
          (received (Bluetooth.write_buffer Bluetooth.init_state) (bytes "HELLO"))
          Bluetooth.init_state, None).
Proof.
  apply (unrecognized_write_returns_nothing Libc.decimal (bytes "HELLO")
           Bluetooth.init_state);
    [reflexivity | simpl; lia | reflexivity].
Defined.

(** C10, the code at a write of 20 bytes: the copy fills indices 0 to 19 of
    the receive buffer, and the store of the terminator, at index 20, is
    outside it. *)
Theorem write_of_20_bytes_overruns
        (libc : Bluetooth.platform) (buf : list ascii) (b : Bluetooth.ble_state) :
  length (Bluetooth.write_buffer b) = Z.to_nat Bluetooth.RECEIVE_BUFF_SIZE ->
  length buf = 20%nat ->
  memcpy (Bluetooth.write_buffer b) buf = Ok buf
  /\ store buf (Z.of_nat (length buf)) Bluetooth.NUL = OutOfBounds
  /\ Bluetooth.write_custom_value libc buf b = OutOfBounds.
Proof.
  intros Hwb Hbuf.
  destruct (receive_20 (Bluetooth.write_buffer b) buf Hwb Hbuf) as [Hcopy Hrecv].
  split; [exact Hcopy|]. split; [apply store_oob; lia|].
  unfold Bluetooth.write_custom_value. by rewrite Hrecv.
Qed.

(** C10 on a command of 20 bytes, from the start-up state. *)
Lemma write_of_20_bytes_overruns_witness :
  Bluetooth.write_custom_value Libc.decimal (bytes "DDSO:-1.00000000000X")
                               Bluetooth.init_state = OutOfBounds.
Proof.
  apply (write_of_20_bytes_overruns Libc.decimal (bytes "DDSO:-1.00000000000X")
           Bluetooth.init_state);
    reflexivity.
Defined.

(** ** The command gate *)

Section Gate.

Variable libc : Bluetooth.platform.

(** Before any command both observers are false. *)
Lemma gate_initially_closed :
  power_requested Main.init = false /\ start_requested Main.init = false.
Proof. split; reflexivity. Qed.

(** A wireless write never clears a wireless flag. *)
Lemma wireless_flags_kept (buf : list ascii) (b : Bluetooth.ble_state)
      (r : Bluetooth.ble_state * option Z) :
  Bluetooth.write_custom_value libc buf b = Ok r ->
  (Bluetooth.on_received b = true -> Bluetooth.on_received r.1 = true)
  /\ (Bluetooth.start_received b = true -> Bluetooth.start_received r.1 = true).
Proof.
  unfold Bluetooth.write_custom_value.
  destruct (Bluetooth.receive _ _) as [wb| | |]; simpl; [|done..].
  intros [= <-].
  apply (dispatch_flags_kept libc _ (Bluetooth.set_write_buffer wb b)).
Qed.

(** A request taken on the wireless channel stays: from a state whose
    wireless flag is set, both the flag and the observer hold after every
    interleaving that runs without a fault. *)
Lemma wireless_request_is_kept (acts : list Main.action) :
  forall s s' : Main.system,
    Main.run libc acts s = Ok s' ->
    (Bluetooth.on_received (Main.ble s) = true ->
     Bluetooth.on_received (Main.ble s') = true /\ power_requested s' = true)
    /\ (Bluetooth.start_received (Main.ble s) = true ->
        Bluetooth.start_received (Main.ble s') = true /\ start_requested s' = true).
Proof.
  induction acts as [|act acts IH]; intros s s'; simpl.
  - intros [= <-]. unfold power_requested, start_requested,
      Bluetooth.ble_on_received, Bluetooth.ble_start_received.
    split; intros ->; by rewrite orb_true_r.
  - destruct (Main.step libc act s) as [s1| | |] eqn:Hstep; simpl; [|done..].
    intros Hrun. destruct (IH s1 s' Hrun) as [Hon Hstart].
    assert ((Bluetooth.on_received (Main.ble s) = true ->
             Bluetooth.on_received (Main.ble s1) = true)
            /\ (Bluetooth.start_received (Main.ble s) = true ->
                Bluetooth.start_received (Main.ble s1) = true)) as [Hon1 Hstart1].
    { destruct act as [|evt|buf]; simpl in Hstep.
      - injection Hstep as <-. unfold Main.main_step.
        destruct (Main.at_pc s); simpl; repeat case_match; simpl; done.
      - destruct (Main.uart_cb evt (Main.main s)); simpl in Hstep; [|done..].
        by injection Hstep as <-.
      - destruct (Bluetooth.write_custom_value libc buf (Main.ble s)) as [r| | |] eqn:Hw;
          simpl in Hstep; [|done..].
        injection Hstep as <-. simpl. by apply (wireless_flags_kept buf). }
    split; intros H; [apply Hon, Hon1, H | apply Hstart, Hstart1, H].
Qed.

(** C5, the code under one interleaving per request.  The serial callback
    takes ON (START) and sets the flag of main.c, so the request is
    observed; the main thread then stores the value that
    [ble_on_received()] ([ble_start_received()]) had returned before, which
    is false, and both observers are false again: the request is lost. *)
Theorem serial_request_is_lost :
  (exists s1 s2,
      Main.run libc on_interleaving Main.init = Ok s1
      /\ Main.on_recieved (Main.main s1) = true
      /\ power_requested s1 = true
      /\ Main.step libc Main.MainThread s1 = Ok s2
      /\ Main.on_recieved (Main.main s2) = false
      /\ power_requested s2 = false
      /\ Main.at_pc s2 = Main.WaitOn_sleep)
  /\ (exists s1 s2,
      Main.run libc start_interleaving Main.init = Ok s1
      /\ Main.start_received (Main.main s1) = true
      /\ start_requested s1 = true
      /\ Main.step libc Main.MainThread s1 = Ok s2
      /\ Main.start_received (Main.main s2) = false
      /\ start_requested s2 = false
      /\ Main.at_pc s2 = Main.WaitStart_sleep).
Proof.
  split.
  - destruct (Main.run libc on_interleaving Main.init) as [s1| | |] eqn:H1;
      try (vm_compute in H1; discriminate H1).
    exists s1, (Main.main_step s1).
    vm_compute in H1. injection H1 as <-. repeat split.
  - destruct (Main.run libc start_interleaving Main.init) as [s1| | |] eqn:H1;
      try (vm_compute in H1; discriminate H1).
    exists s1, (Main.main_step s1).
    vm_compute in H1. injection H1 as <-. repeat split.
Qed.

End Gate.

(** ** The transport loop *)

Section Transport.

Lemma le16_bytes (sample : Z) : Forall (fun byte => 0 <= byte < 256) (le16 sample).
Proof.
  unfold le16. change 0xFF with (Z.ones 8).
  rewrite !Z.land_ones by lia.
  repeat constructor; apply Z.mod_pos_bound; lia.
Qed.

Lemma le16_value (sample : Z) :
  Adc.int16 sample -> decode (le16 sample) = [sample].
Proof.
  unfold Adc.int16, Adc.INT16_MIN, Adc.INT16_MAX, le16, decode, Adc.to_int16.
  intros H. change 0xFF with (Z.ones 8).
  rewrite !Z.land_ones, Z.shiftr_div_pow2 by lia.
  change (2 ^ 8) with 256.
  rewrite <- (Z.rem_mul_r sample 256 256) by lia.
  change (256 * 256) with 65536.
  f_equal.
  Z.div_mod_to_equations. lia.
Qed.

Lemma encode_app (l1 l2 : list Z) : encode (l1 ++ l2) = encode l1 ++ encode l2.
Proof. unfold encode. by rewrite map_app, concat_app. Qed.

Lemma length_encode (l : list Z) : length (encode l) = (2 * length l)%nat.
Proof.
  induction l as [|x l IH]; [done|].
  change (encode (x :: l)) with (le16 x ++ encode l).
  rewrite length_app, IH. simpl. lia.
Qed.

Lemma decode_encode (l : list Z) : Forall Adc.int16 l -> decode (encode l) = l.
Proof.
  induction 1 as [|x l Hx _ IH]; [done|].
  change (encode (x :: l)) with (le16 x ++ encode l).
  pose proof (le16_value x Hx) as Hv. unfold le16 in *. simpl in *.
  injection Hv as Hv. by rewrite Hv, IH.
Qed.

Lemma pack_sample_ok (buf : list Z) (idx k : nat) (payload : list Z) (x : Z) :
  length payload = 80%nat ->
  (k < 40)%nat ->
  Z.of_nat (length buf) < 2 ^ 32 ->
  buf !! (idx + k)%nat = Some x ->
  Adc.pack_sample buf (Z.of_nat idx) (Z.of_nat k) payload
  = Ok (<[S (2 * k) := Z.land (Z.shiftr x 8) 0xFF]>
          (<[(2 * k)%nat := Z.land x 0xFF]> payload)).
Proof.
  intros Hlen Hk Hbig Hx. unfold Adc.pack_sample.
  apply lookup_lt_Some in Hx as Hlt.
  replace (wrap32 (Z.of_nat idx + Z.of_nat k)) with (Z.of_nat (idx + k))
    by (unfold wrap32; rewrite Z.mod_small; lia).
  rewrite (load_ok buf _ x) by (rewrite ?Nat2Z.id; first [lia|done]).
  cbn [mbind result_bind].
  rewrite store_ok by lia.
  cbn [mbind result_bind].
  rewrite store_ok by (rewrite length_insert; lia).
  replace (Z.to_nat (2 * Z.of_nat k + 0)) with (2 * k)%nat by lia.
  replace (Z.to_nat (2 * Z.of_nat k + 1)) with (S (2 * k))%nat by lia.
  done.
Qed.

Lemma for_range_S {S} (n : nat) (i : Z) (body : Z -> S -> result S) (s : S) :
  for_range (Datatypes.S n) i body s = body i s ≫= for_range n (i + 1) body.
Proof. reflexivity. Qed.

(** The inner [for]: started at pass [k] with the first [2k] bytes in
    place, [n] more passes put the next [n] samples in place, every load and
    store in bounds. *)
Lemma for_range_pack (buf : list Z) (idx n : nat) : forall (k : nat) (payload : list Z),
  length payload = 80%nat ->
  (k + n <= 40)%nat ->
  (idx + k + n <= length buf)%nat ->
  Z.of_nat (length buf) < 2 ^ 32 ->
  take (2 * k) payload = encode (take k (drop idx buf)) ->
  exists payload',
    for_range n (Z.of_nat k) (Adc.pack_sample buf (Z.of_nat idx)) payload = Ok payload'
    /\ length payload' = 80%nat
    /\ take (2 * (k + n)) payload' = encode (take (k + n) (drop idx buf)).
Proof.
  induction n as [|n IH]; intros k payload Hlen Hk Hbuf Hbig Hdone.
  - exists payload. by rewrite Nat.add_0_r.
  - destruct (lookup_lt_is_Some_2 buf (idx + k)) as [x Hx]; [lia|].
    rewrite for_range_S, (pack_sample_ok _ _ _ _ x) by (done || lia).
    cbn [mbind result_bind].
    replace (Z.of_nat k + 1) with (Z.of_nat (S k)) by lia.
    destruct (IH (S k) (<[S (2 * k) := Z.land (Z.shiftr x 8) 0xFF]>
                         (<[(2 * k)%nat := Z.land x 0xFF]> payload)))
      as (payload' & Hrun & Hlen' & Htake).
    + by rewrite !length_insert.
    + lia.
    + lia.
    + done.
    + replace (2 * S k)%nat with (S (S (2 * k))) by lia.
      rewrite (take_S_r _ _ (Z.land (Z.shiftr x 8) 0xFF))
        by (apply list_lookup_insert_eq; rewrite length_insert; lia).
      rewrite take_insert_ge by lia.
      rewrite (take_S_r _ _ (Z.land x 0xFF)) by (apply list_lookup_insert_eq; lia).
      rewrite take_insert_ge by lia.
      rewrite (take_S_r _ k x) by (by rewrite lookup_drop).
      rewrite encode_app, Hdone, <- app_assoc. done.
    + exists payload'. rewrite Hrun.
      replace (k + S n)%nat with (S k + n)%nat by lia. done.
Qed.

(** The chunks concern only the bytes, not the state of the link. *)
Lemma deliver_log (b : Bluetooth.ble_state) (chunks : list (list Z)) :
  Bluetooth.chunk_calls (foldl deliver b chunks) = Bluetooth.chunk_calls b ++ chunks
  /\ subscribed (foldl deliver b chunks) = subscribed b
  /\ Bluetooth.notified (foldl deliver b chunks)
     = Bluetooth.notified b ++ (if subscribed b then chunks else []).
Proof.
  revert b. induction chunks as [|c chunks IH]; intros b; simpl.
  - destruct (subscribed b); by rewrite !app_nil_r.
  - destruct (IH (deliver b c)) as (-> & -> & ->).
    unfold deliver, Bluetooth.ble_send_adc_chunk, subscribed.
    rewrite Nat2Z.id, firstn_all. simpl.
    destruct b as [? ? ? ? ? ? ? enabled linked ? ? ?].
    destruct enabled, linked; simpl; rewrite <- ?app_assoc; done.
Qed.

Lemma send_is_deliver (data : list Z) (len : Z) (b : Bluetooth.ble_state) :
  Bluetooth.ble_send_adc_chunk data len b = deliver b (take (Z.to_nat len) data).
Proof.
  unfold deliver, Bluetooth.ble_send_adc_chunk.
  by rewrite Nat2Z.id, firstn_all.
Qed.

Lemma work_loop_S (fuel : nat) (a : Adc.adc_state) (idx : Z) (b : Bluetooth.ble_state) :
  idx < Adc.g_ble_len a ->
  Adc.work_loop (S fuel) a idx b
  = (let chunk_samples := Z.min (wrap32 (Adc.g_ble_len a - idx)) Adc.SAMPLES_PER_NOTIFY in
     for_range (Z.to_nat chunk_samples) 0 (Adc.pack_sample (Adc.g_ble_buf a) idx)
               (replicate (Z.to_nat (2 * Adc.SAMPLES_PER_NOTIFY)) 0)
     ≫= fun payload =>
          Adc.work_loop fuel a (wrap32 (idx + chunk_samples))
            (Bluetooth.ble_send_adc_chunk payload (wrap32 (2 * chunk_samples)) b)).
Proof.
  intros H. apply Z.ltb_lt in H. simpl. by rewrite H.
Qed.

Lemma work_loop_end (fuel : nat) (a : Adc.adc_state) (idx : Z) (b : Bluetooth.ble_state) :
  Adc.g_ble_len a <= idx -> Adc.work_loop fuel a idx b = Ok b.
Proof.
  intros H. apply Z.ltb_ge in H. destruct fuel; simpl; by rewrite H.
Qed.

(** The outer [while], from sample [idx] on: it ends, every access in
    bounds, having handed over chunks that together are the encoding of
    samples [idx .. len), as many as [len - idx] needs at 40 a chunk, the
    chunk numbered [k] being the encoding of the [min 40 (len - idx - 40 k)]
    samples from [idx + 40 k] on. *)
Lemma work_loop_chunks (a : Adc.adc_state) (len : nat) :
  length (Adc.g_ble_buf a) = 3000%nat ->
  Adc.g_ble_len a = Z.of_nat len ->
  (len <= 3000)%nat ->
  forall (fuel idx : nat) (b : Bluetooth.ble_state),
    (idx <= len)%nat ->
    (len - idx <= fuel)%nat ->
    exists chunks,
      Adc.work_loop fuel a (Z.of_nat idx) b = Ok (foldl deliver b chunks)
      /\ concat chunks = encode (take (len - idx) (drop idx (Adc.g_ble_buf a)))
      /\ (len - idx <= 40 * length chunks < len - idx + 40)%nat
      /\ forall (k : nat) (c : list Z),
           chunks !! k = Some c ->
           c = encode (take (Nat.min 40 (len - idx - 40 * k))
                            (drop (idx + 40 * k) (Adc.g_ble_buf a))).
Proof.
  intros Hbuf Hlen Hcap.
  induction fuel as [|fuel IH]; intros idx b Hidx Hfuel.
  - exists []. rewrite work_loop_end by lia.
    replace (len - idx)%nat with 0%nat by lia. repeat split; simpl; try lia. done.
  - destruct (decide (idx = len)) as [->|Hne].
    { exists []. rewrite work_loop_end by lia.
      rewrite Nat.sub_diag. repeat split; simpl; try lia. done. }
    set (chunk := Nat.min (len - idx) 40).
    rewrite work_loop_S by lia. cbv zeta.
    replace (Z.min (wrap32 (Adc.g_ble_len a - Z.of_nat idx)) Adc.SAMPLES_PER_NOTIFY)
      with (Z.of_nat chunk)
      by (unfold wrap32, Adc.SAMPLES_PER_NOTIFY; rewrite Hlen, Z.mod_small; lia).
    rewrite Nat2Z.id.
    destruct (for_range_pack (Adc.g_ble_buf a) idx chunk 0
                (replicate (Z.to_nat (2 * Adc.SAMPLES_PER_NOTIFY)) 0))
      as (payload & Hpack & Hpl & Htake);
      [by rewrite length_replicate | lia | lia | lia | done |].
    change (Z.of_nat 0) with 0 in Hpack. rewrite Hpack.
    cbn [mbind result_bind].
    rewrite send_is_deliver.
    replace (Z.to_nat (wrap32 (2 * Z.of_nat chunk))) with (2 * chunk)%nat
      by (unfold wrap32; rewrite Z.mod_small; lia).
    replace (wrap32 (Z.of_nat idx + Z.of_nat chunk)) with (Z.of_nat (idx + chunk))
      by (unfold wrap32; rewrite Z.mod_small; lia).
    rewrite Nat.add_0_l in Htake. rewrite Htake.
    destruct (IH (idx + chunk)%nat
                 (deliver b (encode (take chunk (drop idx (Adc.g_ble_buf a))))))
      as (chunks & Hrun & Hcat & Hn & Hk); [lia | lia |].
    exists (encode (take chunk (drop idx (Adc.g_ble_buf a))) :: chunks).
    repeat split.
    + done.
    + simpl. rewrite Hcat, <- encode_app, <- drop_drop, take_take_drop.
      f_equal. f_equal. lia.
    + simpl. lia.
    + simpl. lia.
    + intros [|k] c Hc; simpl in Hc.
      * injection Hc as <-. do 2 f_equal; [lia | f_equal; lia].
      * rewrite (Hk _ _ Hc).
        apply lookup_lt_Some in Hc.
        do 2 f_equal; [lia | f_equal; lia].
Qed.

(** One run of the handler on a slot in range. *)
Lemma handler_chunks (a : Adc.adc_state) (b : Bluetooth.ble_state) :
  slot_ok a ->
  let len := Z.to_nat (Adc.g_ble_len a) in
  exists chunks,
    Adc.saadc_ble_work_handler a b = Ok (foldl deliver b chunks)
    /\ concat chunks = encode (take len (Adc.g_ble_buf a))
    /\ (len <= 40 * length chunks < len + 40)%nat
    /\ forall (k : nat) (c : list Z),
         chunks !! k = Some c ->
         c = encode (take (Nat.min 40 (len - 40 * k)) (drop (40 * k) (Adc.g_ble_buf a))).
Proof.
  intros [Hbuf Hlen] len. unfold Adc.SAADC_BUFFER_SIZE in *.
  destruct (work_loop_chunks a len Hbuf ltac:(lia) ltac:(lia) len 0%nat b)
    as (chunks & Hrun & Hcat & Hn & Hk); [lia | lia |].
  exists chunks. unfold Adc.saadc_ble_work_handler. fold len.
  rewrite Nat.sub_0_r in *. rewrite drop_0 in Hcat.
  repeat split; try done; try lia.
Qed.

End Transport.

Section Chunking.

Import Bluetooth Adc.

(** C1: one run of the work handler on a staged block of length [L]
    (0 <= L <= 3000) with [C] = 40.  The run ends without a fault; the
    chunks it hands to [ble_send_adc_chunk], in order (and to
    [bt_gatt_notify] when the peer is connected and subscribed), number
    ceil(L/C); chunk [k] is the little-endian encoding of the at most [C]
    staged samples from [k * C] on; every chunk but the last has [2 * C]
    bytes, the last has [2 * (L mod C)] bytes, or [2 * C] when [C] divides
    [L]; no chunk is empty and none exceeds 80 bytes; the payloads
    concatenated are the encoding of the [L] staged samples, and decode back
    to them. *)
Theorem chunking_correctness (a : adc_state) (b : ble_state) :
  slot_ok a ->
  let L := g_ble_len a in
  let C := SAMPLES_PER_NOTIFY in
  let staged := take (Z.to_nat L) (g_ble_buf a) in
  exists (chunks : list (list Z)) (b' : ble_state),
    saadc_ble_work_handler a b = Ok b'
    /\ chunk_calls b' = chunk_calls b ++ chunks
    /\ (subscribed b = true -> notified b' = notified b ++ chunks)
    /\ Z.of_nat (length chunks) = (L + C - 1) `div` C
    /\ (forall (k : nat) (c : list Z),
          chunks !! k = Some c ->
          c = encode (take (Z.to_nat C) (drop (k * Z.to_nat C) staged))
          /\ Z.of_nat (length c)
             = 2 * (if decide (S k < length chunks)%nat then C
                    else if decide (L `mod` C = 0) then C else L `mod` C)
          /\ (0 < length c <= 80)%nat)
    /\ concat chunks = encode staged
    /\ (Forall int16 staged -> decode (concat chunks) = staged).
Proof.
  intros Hok L C staged.
  destruct (handler_chunks a b Hok) as (chunks & Hrun & Hcat & Hn & Hk).
  destruct Hok as [Hbuf Hlen]. unfold SAADC_BUFFER_SIZE in *.
  fold L in Hlen, Hcat, Hn, Hk. fold staged in Hcat.
  destruct (deliver_log b chunks) as (Hlog & _ & Hnot).
  exists chunks, (foldl deliver b chunks).
  split; [done|]. split; [done|].
  split; [intros Hsub; by rewrite Hnot, Hsub|].
  split.
  { unfold C, SAMPLES_PER_NOTIFY.
    apply (Z.div_unique _ _ _ (L + 39 - 40 * Z.of_nat (length chunks))); lia. }
  split; [|split; [done|intros; rewrite Hcat; by apply decode_encode]].
  intros k c Hc. apply lookup_lt_Some in Hc as Hlt.
  assert (c = encode (take (Z.to_nat C) (drop (k * Z.to_nat C) staged))) as Hcontent.
  { rewrite (Hk k c Hc). f_equal. unfold staged.
    change (Z.to_nat C) with 40%nat.
    rewrite (Nat.mul_comm k 40), skipn_firstn_comm, take_take. done. }
  split; [done|].
  assert (length c = (2 * Nat.min 40 (Z.to_nat L - 40 * k))%nat) as Hsize.
  { rewrite (Hk k c Hc), length_encode, length_take, length_drop. lia. }
  split; [|lia].
  unfold C, SAMPLES_PER_NOTIFY. rewrite Hsize.
  repeat case_decide; Z.div_mod_to_equations; lia.
Qed.

End Chunking.

(** C1 at a slot of 100 samples: three chunks, which together are the
    encoding of the block. *)
Lemma chunking_correctness_witness :
  slot_ok staged_100
  /\ exists chunks b',
      Adc.saadc_ble_work_handler staged_100 Bluetooth.init_state = Ok b'
      /\ Bluetooth.chunk_calls b' = chunks
      /\ Z.of_nat (length chunks) = 3
      /\ concat chunks = encode (ramp 100).
Proof.
  assert (slot_ok staged_100) as Hok.
  { split; [reflexivity | vm_compute; split; discriminate]. }
  split; [exact Hok|].
  destruct (chunking_correctness staged_100 Bluetooth.init_state Hok)
    as (chunks & b' & Hrun & Hlog & _ & Hn & _ & Hcat & _).
  exists chunks, b'. repeat split; [exact Hrun | exact Hlog | exact Hn | exact Hcat].
Defined.

(** ** Staging *)

Section Staging.

Import Adc.

(** The DONE case on an empty block: the average is divided by a size of
    zero before anything is logged or staged. *)
Lemma done_empty (a : adc_state) :
  saadc_event_handler (done_evt []) a = DivisionByZero.
Proof. reflexivity. Qed.

(** The DONE case on a block that is not empty and a slot in range: the
    first [min(length, capacity)] samples of the block overwrite the head
    of the slot, the rest of the slot keeps its content, the length field
    is set, the work item is submitted; the rotation counter and the
    driver's blocks are not touched. *)
Lemma done_stages (block : list Z) (a : adc_state) :
  block <> [] ->
  length (g_ble_buf a) = Z.to_nat SAADC_BUFFER_SIZE ->
  exists a',
    saadc_event_handler (done_evt block) a = Ok a'
    /\ g_ble_len a' = Z.of_nat (staged_len block)
    /\ g_ble_buf a' = take (staged_len block) block ++ drop (staged_len block) (g_ble_buf a)
    /\ work_pending a' = true
    /\ saadc_current_buffer a' = saadc_current_buffer a
    /\ assigned a' = assigned a
    /\ slot_ok a'.
Proof.
  intros Hne Hbuf. unfold saadc_event_handler, done_evt, size, staged_len in *.
  cbn [type p_buffer].
  destruct (stats block) as [[average max] min].
  replace (Z.of_nat (length block) =? 0) with false
    by (symmetry; apply Z.eqb_neq; destruct block; [done | simpl; lia]).
  unfold stage, SAADC_BUFFER_SIZE in *.
  set (a0 := put _ (put _ (put _ a))).
  assert (Z.to_nat (if Z.of_nat (length block) >? 3000 then 3000
                    else Z.of_nat (length block))
          = Nat.min (length block) (Z.to_nat 3000)) as Hn.
  { destruct (Z.gtb_spec (Z.of_nat (length block)) 3000); lia. }
  rewrite Hn.
  rewrite memcpy_ok by (rewrite length_take; subst a0; cbn [g_ble_buf put]; lia).
  cbn [mbind result_bind].
  replace (length (take (Nat.min (length block) (Z.to_nat 3000)) block))
    with (Nat.min (length block) (Z.to_nat 3000)) by (rewrite length_take; lia).
  eexists. split; [reflexivity|].
  assert (0 <= (if Z.of_nat (length block) >? 3000 then 3000
                else Z.of_nat (length block)) <= 3000) as Hrange
    by (destruct (Z.gtb_spec (Z.of_nat (length block)) 3000); lia).
  unfold slot_ok, SAADC_BUFFER_SIZE.
  cbn [g_ble_len g_ble_buf work_pending saadc_current_buffer assigned
       k_work_submit set_staging set_work_pending put a0].
  rewrite length_app, length_take, length_drop.
  repeat split; try done; lia.
Qed.

End Staging.

Section Handoff.

Import Bluetooth Adc.

Lemma load_in_bounds {A} (arr : list A) (i : Z) (x : A) :
  load arr i = Ok x -> 0 <= i < Z.of_nat (length arr).
Proof.
  unfold load.
  destruct (Z.leb_spec 0 i), (Z.ltb_spec i (Z.of_nat (length arr))); simpl; done.
Qed.

Lemma slot_ok_pending (p : bool) (a : adc_state) :
  slot_ok a -> slot_ok (set_work_pending p a).
Proof. done. Qed.

(** A run of the work queue with the item pending: the handler runs on the
    slot as it is (the slot is only read) and hands over the encoding of
    its [g_ble_len] samples. *)
Lemma drain_pending (a : adc_state) (b : ble_state) :
  slot_ok a ->
  work_pending a = true ->
  exists chunks,
    k_work_run (a, b) = Ok (set_work_pending false a, foldl deliver b chunks)
    /\ concat chunks = encode (take (Z.to_nat (g_ble_len a)) (g_ble_buf a))
    /\ (Z.to_nat (g_ble_len a) <= 40 * length chunks < Z.to_nat (g_ble_len a) + 40)%nat.
Proof.
  intros Hok Hp. unfold k_work_run. rewrite Hp.
  destruct (handler_chunks (set_work_pending false a) b (slot_ok_pending false a Hok))
    as (chunks & Hrun & Hcat & Hn & _).
  exists chunks. rewrite Hrun. done.
Qed.

Lemma run_cons (o : op) (ops : list op) (s : adc_state * ble_state) :
  run (o :: ops) s = step o s ≫= run ops.
Proof. reflexivity. Qed.

Lemma step_done (block : list Z) (a : adc_state) (b : ble_state) :
  step (Done block) (a, b) = saadc_event_handler (done_evt block) a ≫= fun a' => Ok (a', b).
Proof. reflexivity. Qed.



(** C9: from a slot in range, over every sequence of DONE events and runs
    of the work queue.  Either the sequence runs to its end, and the slot
    is in range again (the array has its 3000 samples and [g_ble_len] is at
    most 3000); or it holds a DONE event with an empty block, where the
    handler divides by zero before it stages anything, and the sequence ran
    up to that event with the slot in range.  No load from [g_ble_buf] and
    no store to it falls outside the array: an access outside would end the
    run in [OutOfBounds] ([load_in_bounds]). *)
Theorem staging_stays_in_bounds (ops : list op) (a : adc_state) (b : ble_state) :
  slot_ok a ->
  (exists a' b', run ops (a, b) = Ok (a', b') /\ slot_ok a')
  \/ (exists pre post a1 b1,
        ops = pre ++ Done [] :: post
        /\ run pre (a, b) = Ok (a1, b1) /\ slot_ok a1
        /\ run ops (a, b) = DivisionByZero).
Proof.
  revert a b. induction ops as [|o ops IH]; intros a b Hok.
  - left. by exists a, b.
  - assert (forall a1 b1, step o (a, b) = Ok (a1, b1) -> slot_ok a1 ->
            (exists a' b', run (o :: ops) (a, b) = Ok (a', b') /\ slot_ok a')
            \/ (exists pre post a2 b2,
                  o :: ops = pre ++ Done [] :: post
                  /\ run pre (a, b) = Ok (a2, b2) /\ slot_ok a2
                  /\ run (o :: ops) (a, b) = DivisionByZero)) as Hnext.
    { intros a1 b1 Hstep Hok1. rewrite run_cons, Hstep. cbn [mbind result_bind].
      destruct (IH a1 b1 Hok1) as [Hend | (pre & post & a2 & b2 & -> & Hpre & Hok2 & Hrun)].
      - by left.
      - right. exists (o :: pre), post, a2, b2.
        rewrite run_cons, Hstep. cbn [mbind result_bind]. done. }
    destruct o as [[|x block]|].
    + right. exists [], ops, a, b.
      split; [done|]. split; [done|]. split; [exact Hok|].
      by rewrite run_cons, step_done, done_empty.
    + destruct (done_stages (x :: block) a ltac:(done) (proj1 Hok))
        as (a1 & Hd & _ & _ & _ & _ & _ & Hok1).
      apply (Hnext a1 b); [|done]. by rewrite step_done, Hd.
    + change (step Drain (a, b)) with (k_work_run (a, b)) in Hnext.
      destruct (work_pending a) eqn:Hp.
      * destruct (drain_pending a b Hok Hp) as (chunks & Hrun & _).
        apply (Hnext _ _ Hrun). by apply slot_ok_pending.
      * apply (Hnext a b); [|done]. unfold k_work_run. by rewrite Hp.
Qed.

End Handoff.

(** The slot at start-up is in range. *)
Lemma slot_ok_init : slot_ok Adc.init_state.
Proof. split; [reflexivity | vm_compute; split; discriminate]. Qed.





(** C9 from the start-up state, on blocks longer than, shorter than and
    as long as the slot. *)
Lemma staging_stays_in_bounds_witness :
  exists a' b',
    Adc.run [Adc.Done (ramp 3500); Adc.Drain; Adc.Done (ramp 10);
             Adc.Drain; Adc.Done (ramp 3000); Adc.Drain]
            (Adc.init_state, Bluetooth.init_state) = Ok (a', b')
    /\ slot_ok a'.
Proof.
  destruct (staging_stays_in_bounds
              [Adc.Done (ramp 3500); Adc.Drain; Adc.Done (ramp 10);
               Adc.Drain; Adc.Done (ramp 3000); Adc.Drain]
              Adc.init_state Bluetooth.init_state)
    as [Hend | (pre & post & a1 & b1 & Hops & _)].
  - split; [reflexivity | vm_compute; split; discriminate].
  - exact Hend.
  - exfalso.
    assert (Adc.Done [] ∈ [Adc.Done (ramp 3500); Adc.Drain; Adc.Done (ramp 10);
                           Adc.Drain; Adc.Done (ramp 3000); Adc.Drain]) as Hin.
    { rewrite Hops. apply elem_of_app. right. by left. }
    repeat (apply elem_of_cons in Hin as [Hin | Hin]; [discriminate Hin|]).
    by apply elem_of_nil in Hin.
Defined.

(** ** Block rotation *)

Section Rotation.

Import Adc.

Lemma rotation_S (from count : nat) :
  rotation from (S count) = Z.of_nat from `mod` 2 :: rotation (S from) count.
Proof.
  unfold rotation. cbn [seq map]. rewrite Nat.add_0_r. f_equal.
  rewrite <- seq_shift, map_map. apply map_ext. intros k.
  by rewrite Nat.add_succ_r.
Qed.

Lemma parity_step (c : Z) (k : nat) :
  c `mod` 2 = Z.of_nat k `mod` 2 ->
  wrap32 (c + 1) `mod` 2 = Z.of_nat (S k) `mod` 2.
Proof.
  intros H. unfold wrap32.
  rewrite Z.mod_mod_divide by (by exists (2 ^ 31)).
  rewrite Nat2Z.inj_succ. unfold Z.succ.
  rewrite Z.add_mod, H, <- Z.add_mod by lia. done.
Qed.

(** [K] cycles started with blocks [k mod 2] and [(k+1) mod 2] assigned and
    the counter at the parity of [k]: they rotate, unless a block is empty
    and its DONE event divides by zero. *)
Lemma cycles_rotate (blocks : list (list Z)) : forall (a : adc_state) (k : nat),
  length (g_ble_buf a) = Z.to_nat SAADC_BUFFER_SIZE ->
  assigned a = rotation k 2 ->
  saadc_current_buffer a `mod` 2 = Z.of_nat k `mod` 2 ->
  (Forall (fun block => block <> []) blocks
   /\ exists a',
       converter_run (flat_map cycle blocks) a = Ok (rotation k (length blocks), a')
       /\ assigned a' = rotation (k + length blocks) 2)
  \/ ([] ∈ blocks /\ converter_run (flat_map cycle blocks) a = DivisionByZero).
Proof.
  induction blocks as [|B blocks IH]; intros a k Hbuf Hq Hc.
  - left. split; [constructor|]. exists a. by rewrite Nat.add_0_r.
  - cbn [flat_map cycle app converter_run].
    unfold converter_buf_req, saadc_event_handler. cbn [type].
    unfold nrfx_saadc_buffer_set.
    cbn [mbind result_bind assigned set_assigned set_current_buffer].
    unfold converter_done, nrfx_saadc_complete.
    cbn [assigned set_assigned set_current_buffer]. rewrite Hq.
    cbn [rotation seq map app].
    destruct B as [|x B].
    { right. split; [by left | reflexivity]. }
    match goal with
    | |- context [saadc_event_handler ?e ?s] =>
        destruct (done_stages (x :: B) s) as (a2 & Hd & _ & _ & _ & Hc2 & Hq2 & Hok2);
          [done | exact Hbuf|]
    end.
    unfold done_evt in Hd. rewrite Hd.
    cbn [mbind result_bind fst snd].
    cbn [saadc_current_buffer assigned set_assigned set_current_buffer] in Hc2, Hq2.
    destruct (IH a2 (S k)) as [(Hall & a' & Hrun & Hq') | (Hin & Hrun)];
      [| | |left; split; [by constructor|]
       |right; split; [by right | by rewrite Hrun]].
    + apply Hok2.
    + rewrite Hq2. unfold rotation. cbn [seq map]. rewrite Hc.
      replace (Z.of_nat (S k + 1)) with (Z.of_nat k + 1 * 2) by lia.
      rewrite Z.mod_add by lia.
      do 3 f_equal. lia.
    + rewrite Hc2. by apply parity_step.
    + exists a'. rewrite Hrun. cbn [mbind result_bind fst snd length].
      rewrite rotation_S, Nat.add_0_r. split; [done|].
      rewrite Hq'.
      by replace (k + S (length blocks))%nat with (S k + length blocks)%nat by lia.
Qed.

Lemma rotation_snoc (count : nat) :
  rotation 0 (S count) = rotation 0 count ++ [Z.of_nat count `mod` 2].
Proof. unfold rotation. by rewrite seq_S, map_app. Qed.

(** The same in any order of the events, none completing an empty block,
    as long as the driver completes blocks in the order of their
    assignment: the blocks completed so far, followed by those still
    assigned, read 0, 1, 0, 1, ... *)
Lemma any_order_rotates (evts : list converter_event) :
  forall (a : adc_state) (finished : list Z) (n : nat),
    Forall (fun evt => evt <> BlockDone []) evts ->
    length (g_ble_buf a) = Z.to_nat SAADC_BUFFER_SIZE ->
    finished ++ assigned a = rotation 0 n ->
    saadc_current_buffer a `mod` 2 = Z.of_nat n `mod` 2 ->
    exists completed a' n',
      converter_run evts a = Ok (completed, a')
      /\ finished ++ completed ++ assigned a' = rotation 0 n'.
Proof.
  induction evts as [|[|samples] evts IH]; intros a finished n Hevts Hbuf Hq Hc;
    [|apply Forall_cons in Hevts as [Hevt Hevts]..].
  - exists [], a, n. done.
  - cbn [converter_run].
    unfold converter_buf_req, saadc_event_handler. cbn [type].
    unfold nrfx_saadc_buffer_set. cbn [mbind result_bind].
    apply (IH _ finished (S n)).
    + exact Hevts.
    + exact Hbuf.
    + cbn [assigned set_assigned set_current_buffer saadc_current_buffer].
      by rewrite app_assoc, Hq, Hc, rotation_snoc.
    + cbn [assigned set_assigned set_current_buffer saadc_current_buffer].
      by apply parity_step.
  - cbn [converter_run]. unfold converter_done, nrfx_saadc_complete.
    destruct (assigned a) as [|block q] eqn:Ha.
    + cbn [mbind result_bind fst snd].
      destruct (IH a finished n Hevts Hbuf ltac:(by rewrite Ha) Hc)
        as (completed & a' & n' & Hrun & Hrot).
      exists completed, a', n'. by rewrite Hrun.
    + destruct (done_stages samples (set_assigned q a) ltac:(congruence) Hbuf)
        as (a2 & Hd & _ & _ & _ & Hc2 & Hq2 & Hok2).
      unfold done_evt in Hd. rewrite Hd. cbn [mbind result_bind fst snd].
      cbn [assigned set_assigned saadc_current_buffer] in Hc2, Hq2.
      destruct (IH a2 (finished ++ [block]) n Hevts (proj1 Hok2))
        as (completed & a' & n' & Hrun & Hrot).
      * by rewrite Hq2, <- app_assoc.
      * by rewrite Hc2.
      * exists (block :: completed), a', n'. rewrite Hrun.
        cbn [mbind result_bind fst snd]. split; [done|].
        by rewrite <- Hrot, <- app_assoc.
Qed.

(** From the configured state, whatever the order of the events, the
    [k]-th block reported complete is block [k mod 2]. *)
Lemma rotation_in_any_order (evts : list converter_event) :
  Forall (fun evt => evt <> BlockDone []) evts ->
  exists completed a',
    converter_run evts (saadc_start init_state) = Ok (completed, a')
    /\ forall (k : nat) (block : Z),
         completed !! k = Some block -> block = Z.of_nat k `mod` 2.
Proof.
  intros Hevts.
  destruct (any_order_rotates evts (saadc_start init_state) [] 2 Hevts)
    as (completed & a' & n & Hrun & Hrot); [reflexivity..|].
  exists completed, a'. split; [exact Hrun|].
  intros k block Hk. simpl in Hrot.
  assert (rotation 0 n !! k = Some block) as Hl
    by (rewrite <- Hrot; by apply lookup_app_l_Some).
  unfold rotation in Hl. rewrite list_lookup_fmap in Hl.
  destruct (seq 0 n !! k) as [j|] eqn:Hj; [|done].
  apply lookup_seq in Hj as [-> _]. simpl in Hl. by injection Hl as <-.
Qed.

(** C4: after [saadc_start] the blocks assigned are 0 then 1.  Over [K]
    cycles, each a BUF_REQ followed by a DONE, the handler assigns the
    blocks in the order 0, 1, 0, 1, ... (the blocks completed, followed by
    the two still assigned, read 0, 1, 0, 1, ... from the first
    assignment on), and the [k]-th DONE reports block [k mod 2].  The one
    other outcome is that of a cycle whose DONE event carries an empty
    block: there the handler divides by zero. *)
Theorem block_rotation (blocks : list (list Z)) :
  let K := length blocks in
  let configured := saadc_start init_state in
  assigned configured = [0; 1]
  /\ ((Forall (fun block => block <> []) blocks
       /\ exists completed a',
           converter_run (flat_map cycle blocks) configured = Ok (completed, a')
           /\ length completed = K
           /\ (forall k : nat, (k < K)%nat -> completed !! k = Some (Z.of_nat k `mod` 2))
           /\ completed ++ assigned a' = rotation 0 (K + 2))
      \/ ([] ∈ blocks
          /\ converter_run (flat_map cycle blocks) configured = DivisionByZero)).
Proof.
  intros K configured. split; [reflexivity|].
  destruct (cycles_rotate blocks configured 0) as [(Hall & a' & Hrun & Hq) | Hfault];
    [reflexivity | reflexivity | reflexivity | | by right].
  left. split; [exact Hall|].
  exists (rotation 0 K), a'. fold K in Hrun, Hq.
  split; [exact Hrun|]. split; [by unfold rotation; rewrite length_map, length_seq|].
  split.
  - intros k Hk. unfold rotation.
    rewrite list_lookup_fmap, lookup_seq_lt by done. done.
  - rewrite Hq. unfold rotation.
    rewrite seq_app, map_app. f_equal.
    cbn [seq map]. by rewrite !Nat.add_0_l, Nat.add_0_r, Nat.add_1_r.
Qed.

End Rotation.

(** * Further properties of the three files *)

(** ** adc.c: the diagnostics of the DONE case *)

Section Diagnostics.

Import Adc.

Lemma stats_from (samples : list Z) : forall (sum mx mn : Z),
  exists mx' mn',
    fold_left (fun '(average, max, min) current_value =>
                 (average + current_value,
                  if current_value >? max then current_value else max,
                  if current_value <? min then current_value else min))
              samples (sum, mx, mn)
    = (sum + total samples, mx', mn')
    /\ mx <= mx' /\ mn' <= mn
    /\ Forall (fun x => mn' <= x <= mx') samples
    /\ (mx' = mx \/ mx' ∈ samples)
    /\ (mn' = mn \/ mn' ∈ samples).
Proof.
  induction samples as [|x samples IH]; intros sum mx mn.
  - exists mx, mn. simpl. rewrite Z.add_0_r. repeat split; auto; lia.
  - cbn [fold_left total fold_right].
    destruct (IH (sum + x) (if x >? mx then x else mx) (if x <? mn then x else mn))
      as (mx' & mn' & Hfold & Hmx & Hmn & Hall & Hmxin & Hmnin).
    exists mx', mn'. rewrite Hfold.
    destruct (Z.gtb_spec x mx), (Z.ltb_spec x mn);
      (split; [by rewrite Z.add_assoc|]);
      (split; [lia|]); (split; [lia|]);
      (split; [constructor; [lia|done]|]);
      (split; [destruct Hmxin as [->|?]; [first [by left | right; by left]|right; by right]
              |destruct Hmnin as [->|?]; [first [by left | right; by left]|right; by right]]).
Qed.

(** X1: the statistics logged for a completed block that is not empty and
    holds 16-bit samples.  The logged minimum and maximum are samples of the
    block and bound every sample; the logged average is the sum divided by
    the number of samples, truncated toward zero, lies between the minimum
    and the maximum, and is not changed by the cast to [int16_t]. *)
Theorem done_statistics (block : list Z) (a : adc_state) :
  block <> [] ->
  Forall int16 block ->
  length (g_ble_buf a) = Z.to_nat SAADC_BUFFER_SIZE ->
  exists a' average mn mx,
    saadc_event_handler (done_evt block) a = Ok a'
    /\ outputs a' = outputs a ++ [LogFilled (Z.of_nat (length block));
                                  LogStats average mn mx;
                                  RttWrite block]
    /\ average = total block ÷ Z.of_nat (length block)
    /\ mn ∈ block /\ mx ∈ block
    /\ Forall (fun x => mn <= x <= mx) block
    /\ mn <= average <= mx.
Proof.
  intros Hne Hint Hbuf.
  destruct (stats_from block 0 INT16_MIN INT16_MAX)
    as (mx & mn & Hfold & Hmx & Hmn & Hall & Hmxin & Hmnin).
  assert (exists x, x ∈ block) as [x0 Hx0]
    by (destruct block as [|x ?]; [done|exists x; by left]).
  assert (Forall (fun x => INT16_MIN <= x <= INT16_MAX) block) as Hint' by exact Hint.
  rewrite Forall_forall in Hall, Hint'.
  pose proof (Hall x0 Hx0) as Hb0. pose proof (Hint' x0 Hx0) as Hi0.
  assert (mx ∈ block) as Hmx'
    by (destruct Hmxin as [Heq|?]; [replace mx with x0 by lia|]; done).
  assert (mn ∈ block) as Hmn'
    by (destruct Hmnin as [Heq|?]; [replace mn with x0 by lia|]; done).
  pose proof (Hint' mx Hmx') as Himx. pose proof (Hint' mn Hmn') as Himn.
  assert (Z.of_nat (length block) * mn <= total block <= Z.of_nat (length block) * mx)
    as Hsum.
  { clear -Hall. induction block as [|x block IH]; [simpl; lia|].
    cbn [length total fold_right]. rewrite Nat2Z.inj_succ.
    pose proof (Hall x ltac:(by left)).
    destruct IH as [? ?]; [intros y Hy; apply Hall; by right|]. fold (total block). lia. }
  assert (0 < Z.of_nat (length block)) as Hpos
    by (destruct block; [done|simpl; lia]).
  assert (mn <= total block ÷ Z.of_nat (length block) <= mx) as Havg.
  { Z.to_euclidean_division_equations. nia. }
  destruct (done_stages block a Hne Hbuf) as (a' & Hrun & _).
  exists a', (total block ÷ Z.of_nat (length block)), mn, mx.
  split; [exact Hrun|].
  split.
  { revert Hrun. unfold saadc_event_handler, done_evt, size, stats. cbn [type p_buffer].
    rewrite Hfold. unfold stage, SAADC_BUFFER_SIZE in *.
    replace (Z.of_nat (length block) =? 0) with false by (symmetry; apply Z.eqb_neq; lia).
    destruct (memcpy _ _) as [staged| | |]; cbn [mbind result_bind]; [|done..].
    intros [= <-]. cbn [outputs k_work_submit set_work_pending set_staging put].
    rewrite Z.add_0_l, <- !app_assoc. cbn [app].
    unfold to_int16, INT16_MIN, INT16_MAX in *.
    replace ((total block ÷ Z.of_nat (length block) + 32768) `mod` 65536 - 32768)
      with (total block ÷ Z.of_nat (length block)); [done|].
    rewrite Z.mod_small; lia. }
  rewrite Forall_forall. repeat split; try done; try lia; apply Hall; done.
Qed.

End Diagnostics.

(** X1 on a block of ten samples, from the start-up state. *)
Lemma done_statistics_witness :
  exists a' average mn mx,
    Adc.saadc_event_handler (Adc.done_evt (ramp 10)) Adc.init_state = Ok a'
    /\ average = total (ramp 10) ÷ 10
    /\ mn <= average <= mx.
Proof.
  destruct (done_statistics (ramp 10) Adc.init_state)
    as (a' & average & mn & mx & Hrun & _ & Havg & _ & _ & _ & Hbounds).
  - vm_compute. discriminate.
  - repeat (constructor; [vm_compute; split; discriminate|]). constructor.
  - reflexivity.
  - exists a', average, mn, mx. repeat split; [exact Hrun | exact Havg | apply Hbounds..].
Defined.

(** ** adc.c: what each event touches *)

Section Events.

Import Adc.

Lemma handle_events_cons (evt : nrfx_saadc_evt_t) (evts : list nrfx_saadc_evt_t)
      (a : adc_state) :
  handle_events (evt :: evts) a = saadc_event_handler evt a ≫= handle_events evts.
Proof. reflexivity. Qed.

(** One event: the staging slot and the work item move only on DONE, the
    rotation counter and the blocks given to the driver only on BUF_REQ,
    the timer only on READY, where it is enabled. *)
Lemma event_frame (evt : nrfx_saadc_evt_t) (a a' : adc_state) :
  saadc_event_handler evt a = Ok a' ->
  (is_type NRFX_SAADC_EVT_DONE evt = false ->
   g_ble_buf a' = g_ble_buf a /\ g_ble_len a' = g_ble_len a
   /\ work_pending a' = work_pending a)
  /\ (is_type NRFX_SAADC_EVT_BUF_REQ evt = false ->
      saadc_current_buffer a' = saadc_current_buffer a /\ assigned a' = assigned a)
  /\ timer_enabled a' = timer_enabled a || is_type NRFX_SAADC_EVT_READY evt
  /\ timer_compare_us a' = timer_compare_us a.
Proof.
  destruct evt as [t block]. unfold is_type, saadc_event_handler. cbn [type p_buffer].
  destruct t; try (intros [= <-]; cbn; rewrite ?orb_false_r, ?orb_true_r; done).
  destruct (stats block) as [[average mx] mn]. unfold stage.
  destruct (size _ =? 0); [done|].
  destruct (memcpy _ _) as [staged| | |]; cbn [mbind result_bind]; [|done..].
  intros [= <-]. cbn. rewrite orb_false_r. done.
Qed.

(** X2: over any sequence of converter events that the handler takes
    without a fault, the timer ends enabled exactly when it was enabled
    before or a READY event occurred; [saadc_start] itself does not enable
    it.  Without a DONE event the staging slot and the work item are as
    before; without a BUF_REQ event the rotation counter and the blocks
    given to the driver are as before. *)
Theorem events_touch_their_own_state (evts : list nrfx_saadc_evt_t) :
  forall a a' : adc_state,
    handle_events evts a = Ok a' ->
    timer_enabled a' = timer_enabled a || existsb (is_type NRFX_SAADC_EVT_READY) evts
    /\ timer_enabled (saadc_start a) = timer_enabled a
    /\ timer_compare_us a' = timer_compare_us a
    /\ (existsb (is_type NRFX_SAADC_EVT_DONE) evts = false ->
        g_ble_buf a' = g_ble_buf a /\ g_ble_len a' = g_ble_len a
        /\ work_pending a' = work_pending a)
    /\ (existsb (is_type NRFX_SAADC_EVT_BUF_REQ) evts = false ->
        saadc_current_buffer a' = saadc_current_buffer a /\ assigned a' = assigned a).
Proof.
  induction evts as [|evt evts IH]; intros a a'.
  - intros [= <-]. cbn [existsb]. rewrite orb_false_r. done.
  - rewrite handle_events_cons.
    destruct (saadc_event_handler evt a) as [a1| | |] eqn:H1; cbn [mbind result_bind];
      [|done..].
    intros Hrun. destruct (IH a1 a' Hrun) as (Ht & _ & Hc & Hs & Hr).
    destruct (event_frame evt a a1 H1) as (Hs1 & Hr1 & Ht1 & Hc1).
    cbn [existsb]. split; [by rewrite Ht, Ht1, orb_assoc|].
    split; [done|]. split; [congruence|]. split.
    + intros [Hd Hds]%orb_false_elim.
      destruct (Hs Hds) as (-> & -> & ->). by apply Hs1.
    + intros [Hb Hbs]%orb_false_elim.
      destruct (Hr Hbs) as (-> & ->). by apply Hr1.
Qed.

(** X2 on READY followed by two events the handler only logs. *)
Lemma events_touch_their_own_state_witness :
  exists a',
    handle_events [plain_evt NRFX_SAADC_EVT_READY; plain_evt NRFX_SAADC_EVT_LIMIT;
                   plain_evt NRFX_SAADC_EVT_FINISHED] (saadc_start init_state) = Ok a'
    /\ timer_enabled a' = true
    /\ g_ble_len a' = 0.
Proof.
  eexists. split; [reflexivity|].
  destruct (events_touch_their_own_state
              [plain_evt NRFX_SAADC_EVT_READY; plain_evt NRFX_SAADC_EVT_LIMIT;
               plain_evt NRFX_SAADC_EVT_FINISHED] (saadc_start init_state) _ eq_refl)
    as (Ht & _ & _ & Hs & _).
  split; [exact Ht|]. apply Hs. reflexivity.
Defined.

Lemma buf_req_step (a : adc_state) :
  saadc_event_handler (plain_evt NRFX_SAADC_EVT_BUF_REQ) a
  = Ok (set_assigned (assigned a ++ [saadc_current_buffer a `mod` 2])
          (set_current_buffer (wrap32 (saadc_current_buffer a + 1)) a)).
Proof. reflexivity. Qed.

(** X3: [n] BUF_REQ events in a row, from any value [c] of the 32-bit
    rotation counter, give the driver the blocks [c mod 2, (c+1) mod 2, ...]
    in that order and leave the counter at [(c + n) mod 2^32]: the
    alternation goes on unbroken when the counter wraps. *)
Theorem buffer_requests_alternate (n : nat) : forall a : adc_state,
  0 <= saadc_current_buffer a < 2 ^ 32 ->
  exists a',
    handle_events (replicate n (plain_evt NRFX_SAADC_EVT_BUF_REQ)) a = Ok a'
    /\ assigned a'
       = assigned a ++ map (fun k => (saadc_current_buffer a + Z.of_nat k) `mod` 2) (seq 0 n)
    /\ saadc_current_buffer a' = (saadc_current_buffer a + Z.of_nat n) `mod` 2 ^ 32
    /\ g_ble_len a' = g_ble_len a /\ g_ble_buf a' = g_ble_buf a.
Proof.
  induction n as [|n IH]; intros a Hc.
  - exists a. split; [done|]. cbn [seq map]. rewrite app_nil_r, Z.add_0_r.
    rewrite Z.mod_small by done. done.
  - cbn [replicate]. rewrite handle_events_cons.
    rewrite buf_req_step. cbn [mbind result_bind].
    match goal with |- context [handle_events _ ?s] => set (a1 := s) end.
    destruct (IH a1) as (a' & Hrun & Hq & Hcnt & Hl & Hb).
    { subst a1. cbn [saadc_current_buffer set_assigned set_current_buffer].
      unfold wrap32. apply Z.mod_pos_bound. lia. }
    exists a'. split; [exact Hrun|].
    subst a1. cbn [saadc_current_buffer assigned set_assigned set_current_buffer
                   g_ble_len g_ble_buf] in *.
    split; [|split; [|done]].
    + rewrite Hq, <- app_assoc. f_equal. cbn [seq map app].
      rewrite Z.add_0_r. f_equal.
      rewrite <- seq_shift, map_map. apply map_ext. intros k.
      unfold wrap32. rewrite Z.add_mod, Z.mod_mod_divide by (lia || by exists (2 ^ 31)).
      rewrite <- Z.add_mod by lia. f_equal. lia.
    + rewrite Hcnt. unfold wrap32. rewrite Z.add_mod_idemp_l by lia. f_equal. lia.
Qed.

(** X3 across the wrap: three requests from a counter at [2^32 - 1]. *)
Lemma buffer_requests_alternate_witness :
  exists a',
    handle_events (replicate 3 (plain_evt NRFX_SAADC_EVT_BUF_REQ))
                  (set_current_buffer (2 ^ 32 - 1) init_state) = Ok a'
    /\ assigned a' = [1; 0; 1]
    /\ saadc_current_buffer a' = 2.
Proof.
  destruct (buffer_requests_alternate 3 (set_current_buffer (2 ^ 32 - 1) init_state))
    as (a' & Hrun & Hq & Hc & _).
  - vm_compute. split; [discriminate | reflexivity].
  - exists a'. repeat split; [exact Hrun | exact Hq | exact Hc].
Defined.

End Events.

(** ** adc.c and bluetooth.c: the wire format and the link *)

Section Wire.

Import Bluetooth Adc.

Lemma encode_lookup (l : list Z) : forall (i : nat) (s : Z),
  l !! i = Some s ->
  encode l !! (2 * i)%nat = Some (s `mod` 256)
  /\ encode l !! (2 * i + 1)%nat = Some ((s `div` 256) `mod` 256).
Proof.
  induction l as [|x l IH]; intros i s Hi; [done|].
  change (encode (x :: l)) with (le16 x ++ encode l).
  destruct i as [|i].
  - injection Hi as ->. unfold le16. change 0xFF with (Z.ones 8).
    rewrite !Z.land_ones, Z.shiftr_div_pow2 by lia. done.
  - cbn [lookup list_lookup] in Hi. destruct (IH i s Hi) as [H0 H1].
    replace (2 * S i)%nat with (S (S (2 * i))) by lia.
    replace (S (S (2 * i)) + 1)%nat with (S (S (2 * i + 1))) by lia.
    unfold le16. cbn [app lookup list_lookup]. done.
Qed.

(** X5: the wire format of one run of the work handler on a slot in range.
    The bytes handed over, chunk after chunk, are twice as many as the
    staged samples; sample [i] occupies bytes [2i] and [2i + 1], low byte
    first, as [s mod 256] and [(s / 256) mod 256] (two's complement for a
    negative sample); every byte is below 256, so the casts to [uint8_t]
    lose nothing. *)
Theorem wire_format (a : adc_state) (b : ble_state) :
  slot_ok a ->
  exists (chunks : list (list Z)) (b' : ble_state),
    saadc_ble_work_handler a b = Ok b'
    /\ chunk_calls b' = chunk_calls b ++ chunks
    /\ Z.of_nat (length (concat chunks)) = 2 * g_ble_len a
    /\ Forall (fun byte => 0 <= byte < 256) (concat chunks)
    /\ forall (i : nat) (s : Z),
         (Z.of_nat i < g_ble_len a) ->
         g_ble_buf a !! i = Some s ->
         concat chunks !! (2 * i)%nat = Some (s `mod` 256)
         /\ concat chunks !! (2 * i + 1)%nat = Some ((s `div` 256) `mod` 256).
Proof.
  intros Hok.
  destruct (handler_chunks a b Hok) as (chunks & Hrun & Hcat & _).
  destruct Hok as [Hbuf Hlen]. unfold SAADC_BUFFER_SIZE in *.
  exists chunks, (foldl deliver b chunks).
  split; [exact Hrun|]. split; [apply deliver_log|].
  rewrite Hcat. split; [rewrite length_encode, length_take; lia|].
  split.
  - unfold encode. apply Forall_concat, Forall_fmap, Forall_forall.
    intros s _. apply le16_bytes.
  - intros i s Hi Hs. apply encode_lookup.
    rewrite lookup_take_lt by lia. done.
Qed.

(** X5 on the slot of 100 samples: 200 bytes, and the first sample, -300,
    as the bytes 0xD4, 0xFE. *)
Lemma wire_format_witness :
  exists chunks b',
    saadc_ble_work_handler staged_100 Bluetooth.init_state = Ok b'
    /\ chunk_calls b' = chunks
    /\ Z.of_nat (length (concat chunks)) = 200
    /\ concat chunks !! 0%nat = Some 212
    /\ concat chunks !! 1%nat = Some 254.
Proof.
  destruct (wire_format staged_100 Bluetooth.init_state)
    as (chunks & b' & Hrun & Hlog & Hlen & _ & Hat).
  - split; [reflexivity | vm_compute; split; discriminate].
  - destruct (Hat 0%nat (-300)) as [H0 H1]; [reflexivity | reflexivity |].
    exists chunks, b'.
    repeat split; [exact Hrun | exact Hlog | exact Hlen | exact H0 | exact H1].
Defined.

(** X6: the link state and the transport.  [disconnected] drops the
    connection and the subscription; a later [connected] without error
    restores the connection but not the subscription, and [connected] with
    an error code changes nothing; a subscription counts only for the
    value [BT_GATT_CCC_NOTIFY] and only while connected.  A run of the work
    queue after [disconnected], and after a reconnection that was not
    followed by a new subscription, notifies nothing; after one that was,
    it notifies every chunk of the slot. *)
Theorem link_lifecycle (a : adc_state) (b : ble_state) (err value : Z) :
  slot_ok a ->
  work_pending a = true ->
  subscribed (disconnected b) = false
  /\ subscribed (connected err (disconnected b)) = false
  /\ (err <> 0 -> connected err b = b)
  /\ subscribed (cccd_cfg_changed value (connected 0 b)) = (value =? BT_GATT_CCC_NOTIFY)
  /\ subscribed (cccd_cfg_changed value (disconnected b)) = false
  /\ (forall b0, b0 = disconnected b \/ b0 = connected 0 (disconnected b) ->
      exists b', k_work_run (a, b0) = Ok (set_work_pending false a, b')
                 /\ notified b' = notified b)
  /\ exists chunks b',
      k_work_run (a, cccd_cfg_changed BT_GATT_CCC_NOTIFY (connected 0 (disconnected b)))
      = Ok (set_work_pending false a, b')
      /\ notified b' = notified b ++ chunks
      /\ concat chunks = encode (take (Z.to_nat (g_ble_len a)) (g_ble_buf a)).
Proof.
  intros Hok Hp.
  assert (subscribed (disconnected b) = false) as H1 by reflexivity.
  assert (subscribed (connected err (disconnected b)) = false) as H2.
  { unfold connected. destruct (err =? 0); reflexivity. }
  split; [exact H1|]. split; [exact H2|].
  split.
  { intros Hne. unfold connected. apply Z.eqb_neq in Hne. by rewrite Hne. }
  split.
  { unfold subscribed, cccd_cfg_changed, connected. simpl. reflexivity. }
  split; [reflexivity|].
  split.
  - intros b0 Hb0.
    assert (subscribed b0 = false /\ notified b0 = notified b) as [Hs Hn].
    { destruct Hb0 as [-> | ->]; split; reflexivity. }
    destruct (drain_pending a b0 Hok Hp) as (chunks & Hrun & _).
    destruct (deliver_log b0 chunks) as (_ & _ & Hnot).
    exists (foldl deliver b0 chunks). split; [exact Hrun|].
    by rewrite Hnot, Hs, app_nil_r.
  - set (b1 := cccd_cfg_changed BT_GATT_CCC_NOTIFY (connected 0 (disconnected b))).
    destruct (drain_pending a b1 Hok Hp) as (chunks & Hrun & Hcat & _).
    destruct (deliver_log b1 chunks) as (_ & _ & Hnot).
    exists chunks, (foldl deliver b1 chunks).
    split; [exact Hrun|]. split; [|exact Hcat].
    rewrite Hnot. reflexivity.
Qed.

(** X6 on the pending slot of 100 samples, with no peer yet. *)
Lemma link_lifecycle_witness :
  exists chunks b',
    k_work_run (set_work_pending true staged_100,
                cccd_cfg_changed 1 (connected 0 (disconnected Bluetooth.init_state)))
    = Ok (staged_100, b')
    /\ notified b' = chunks
    /\ concat chunks = encode (ramp 100).
Proof.
  destruct (link_lifecycle (set_work_pending true staged_100) Bluetooth.init_state 0 1)
    as (_ & _ & _ & _ & _ & _ & chunks & b' & Hrun & Hnot & Hcat).
  - split; [reflexivity | vm_compute; split; discriminate].
  - reflexivity.
  - exists chunks, b'. repeat split; [exact Hrun | exact Hnot | exact Hcat].
Defined.

End Wire.

(** ** bluetooth.c: the commands of the write callback *)

Section Commands.

Import Bluetooth.

Variable libc : platform.

Lemma write_runs (buf : list ascii) (b : ble_state) :
  length (write_buffer b) = 20%nat ->
  (length buf <= 19)%nat ->
  write_custom_value libc buf b
  = Ok (dispatch libc (Z.of_nat (length buf))
          (set_write_buffer (received (write_buffer b) buf) b)).
Proof.
  intros Hwb Hbuf. unfold write_custom_value. by rewrite receive_ok.
Qed.

Lemma wrap16_range (z : Z) : 0 <= wrap16 z < 2 ^ 16.
Proof. unfold wrap16. apply Z.mod_pos_bound. lia. Qed.

(** X7: [SDDS:<val>].  Whatever integer [atoi] reads, [changeDDSVal] is
    called once with it reduced modulo 65536 (the argument is a
    [uint16_t]; there is no range test), and [len] is returned. *)
Theorem sdds_command (val : list ascii) (b : ble_state) :
  length (write_buffer b) = 20%nat ->
  (length val <= 14)%nat ->
  let buf := bytes "SDDS:" ++ val in
  let hz := atoi libc (c_str val) `mod` 2 ^ 16 in
  write_custom_value libc buf b
  = Ok (call (changeDDSVal hz) (set_write_buffer (received (write_buffer b) buf) b),
        Some (Z.of_nat (length buf)))
  /\ 0 <= hz < 65536.
Proof.
  intros Hwb Hval buf hz.
  split; [|apply Z.mod_pos_bound; lia].
  rewrite write_runs by (done || (subst buf; simpl; lia)).
  set (b' := set_write_buffer _ b). unfold dispatch.
  assert (str_at (write_buffer b') 5 = c_str val) as ->.
  { unfold str_at, b', received, buf. simpl. apply c_str_terminated. }
  assert (forall c, has (write_buffer b') 0 c = Ascii.eqb "S" c) as H0 by done.
  assert (forall c, has (write_buffer b') 1 c = Ascii.eqb "D" c) as H1 by done.
  assert (forall c, has (write_buffer b') 2 c = Ascii.eqb "D" c) as H2 by done.
  assert (forall c, has (write_buffer b') 3 c = Ascii.eqb "S" c) as H3 by done.
  assert (forall c, has (write_buffer b') 4 c = Ascii.eqb ":" c) as H4 by done.
  rewrite !H0, !H1, !H2, !H3, !H4. decide_tests. reflexivity.
Qed.

Lemma pga_test (d : ascii) :
  (1 <=? wrap16 (code d - code "0")) && (wrap16 (code d - code "0") <=? 2)
  = Ascii.eqb d "1" || Ascii.eqb d "2".
Proof. destruct d as [[] [] [] [] [] [] [] []]; reflexivity. Qed.

(** X8: [P<d>:<n>].  The programmable-gain stage is configured when [d] is
    1 or 2 and [n], reduced modulo 65536 (it is stored in a [uint16_t]),
    is at most 7: the two settings are stored and [configure_pga] is called
    once with them.  Otherwise nothing but the receive buffer changes.
    Either way [len] is returned. *)
Theorem pga_command (d : ascii) (rest : list ascii) (b : ble_state) :
  length (write_buffer b) = 20%nat ->
  (length rest <= 16)%nat ->
  let buf := ("P" :: d :: ":" :: rest)%char in
  let number := code d - code "0" in
  let setting := atoi libc (c_str rest) `mod` 2 ^ 16 in
  let b' := set_write_buffer (received (write_buffer b) buf) b in
  write_custom_value libc buf b
  = Ok (if (Ascii.eqb d "1" || Ascii.eqb d "2") && (setting <=? 7)
        then call (configure_pga number setting) (set_pga number setting b')
        else b',
        Some (Z.of_nat (length buf))).
Proof.
  intros Hwb Hrest buf number setting b'.
  rewrite write_runs by (done || (subst buf; simpl; lia)).
  fold b'. unfold dispatch.
  assert (str_at (write_buffer b') 3 = c_str rest) as ->.
  { unfold str_at, b', received, buf. simpl. apply c_str_terminated. }
  assert (forall c, has (write_buffer b') 0 c = Ascii.eqb "P" c) as H0 by done.
  assert (forall c, has (write_buffer b') 1 c = Ascii.eqb d c) as H1 by done.
  assert (forall c, has (write_buffer b') 2 c = Ascii.eqb ":" c) as H2 by done.
  rewrite !H0, !H1, !H2. decide_tests.
  change (at_ (write_buffer b') 1) with d.
  rewrite pga_test.
  pose proof (wrap16_range (atoi libc (c_str rest))) as Hr.
  replace (0 <=? wrap16 (atoi libc (c_str rest))) with true
    by (symmetry; apply Z.leb_le; lia).
  rewrite andb_true_r. fold (wrap16 (atoi libc (c_str rest))) in setting.
  fold setting.
  destruct (Ascii.eqb_spec d "1") as [->|_];
    [cbn [orb andb]; destruct (setting <=? 7); reflexivity|].
  destruct (Ascii.eqb_spec d "2") as [->|_];
    cbn [orb andb]; [destruct (setting <=? 7)|]; reflexivity.
Qed.

(** X9: [D<d>:<n>].  The branch is reached whatever [d] is (no earlier
    branch takes the buffer).  The wiper is set when [d] is a digit from 0
    to 3 and the integer read is from 0 to 255: channel and value are
    stored and [digipot_wiper_set] is called once.  Otherwise nothing but
    the receive buffer changes.  Either way [len] is returned. *)
Theorem digipot_command (d : ascii) (rest : list ascii) (b : ble_state) :
  length (write_buffer b) = 20%nat ->
  (length rest <= 16)%nat ->
  let buf := ("D" :: d :: ":" :: rest)%char in
  let channel := code d - code "0" in
  let value := atoi libc (c_str rest) in
  let b' := set_write_buffer (received (write_buffer b) buf) b in
  write_custom_value libc buf b
  = Ok (if (0 <=? channel) && (channel <=? 3) && (0 <=? value) && (value <=? 255)
        then call (digipot_wiper_set channel value) (set_digipot channel value b')
        else b',
        Some (Z.of_nat (length buf))).
Proof.
  intros Hwb Hrest buf channel value b'.
  rewrite write_runs by (done || (subst buf; simpl; lia)).
  fold b'. unfold dispatch.
  assert (str_at (write_buffer b') 3 = c_str rest) as ->.
  { unfold str_at, b', received, buf. simpl. apply c_str_terminated. }
  assert (forall c, has (write_buffer b') 0 c = Ascii.eqb "D" c) as H0 by done.
  assert (forall c, has (write_buffer b') 1 c = Ascii.eqb d c) as H1 by done.
  assert (forall c, has (write_buffer b') 2 c = Ascii.eqb ":" c) as H2 by done.
  rewrite !H0, !H1, !H2. decide_tests.
  change (at_ (write_buffer b') 1) with d. fold channel value.
  destruct (_ && _); reflexivity.
Qed.

(** X10: [M:<d>].  When [d] is a digit from 0 to 7, [set_mux] is called
    once with that digit and [len] is returned; the range test inside the
    branch can then not fail.  When it is not, no branch takes the buffer:
    nothing but the receive buffer changes and no length is returned. *)
Theorem mux_command (d : ascii) (rest : list ascii) (b : ble_state) :
  length (write_buffer b) = 20%nat ->
  (length rest <= 16)%nat ->
  let buf := ("M" :: ":" :: d :: rest)%char in
  let setting := code d - code "0" in
  let b' := set_write_buffer (received (write_buffer b) buf) b in
  write_custom_value libc buf b
  = Ok (if (code "0" <=? code d) && (code d <=? code "7")
        then (call (set_mux setting) b', Some (Z.of_nat (length buf)))
        else (b', None))
  /\ ((code "0" <=? code d) && (code d <=? code "7") = true -> 0 <= setting <= 7).
Proof.
  intros Hwb Hrest buf setting b'.
  split.
  - rewrite write_runs by (done || (subst buf; simpl; lia)).
    fold b'. unfold dispatch.
    assert (forall c, has (write_buffer b') 0 c = Ascii.eqb "M" c) as H0 by done.
    assert (forall c, has (write_buffer b') 1 c = Ascii.eqb ":" c) as H1 by done.
    rewrite !H0, !H1. decide_tests.
    change (at_ (write_buffer b') 2) with d. fold setting.
    destruct (Z.leb_spec (code "0") (code d)), (Z.leb_spec (code d) (code "7"));
      cbn [andb]; try reflexivity.
    replace ((0 <=? setting) && (setting <=? 7)) with true; [reflexivity|].
    change (code "0") with 48 in *. change (code "7") with 55 in *.
    symmetry. apply andb_true_iff. split; apply Z.leb_le; subst setting; lia.
  - change (code "0") with 48 in *. change (code "7") with 55 in *.
    intros [H1 H2]%andb_true_iff. apply Z.leb_le in H1, H2. subst setting. lia.
Qed.

(** X11: the three other commands with a decimal argument, [DDSA:], [SCO:]
    and [SCA:], each in a write of at most 19 bytes.  Each reads its
    argument with [atof] right after the colon, returns [len], and calls
    its routine once, with the value read, exactly when the value passes
    the range test of its branch: the limits of dds.h, [-3.3, 3.3], and
    [1, 7000]. *)
Theorem decimal_commands (val : list ascii) (b : ble_state) :
  length (write_buffer b) = 20%nat ->
  let x := atof libc (c_str val) in
  let answer (accepted : bool) (c : peripheral_call) (buf : list ascii) :=
    let b' := set_write_buffer (received (write_buffer b) buf) b in
    Ok (if accepted then call c b' else b', Some (Z.of_nat (length buf))) in
  ((length val <= 14)%nat ->
   write_custom_value libc (bytes "DDSA:" ++ val) b
   = answer (between (MIN_DDS_AMPLIFICATION libc) (MAX_DDS_AMPLIFICATION libc) x)
            (set_dds_amplification x) (bytes "DDSA:" ++ val))
  /\ ((length val <= 15)%nat ->
      write_custom_value libc (bytes "SCO:" ++ val) b
      = answer (between (- f3_3) f3_3 x) (set_signal_chain_offset x) (bytes "SCO:" ++ val))
  /\ ((length val <= 15)%nat ->
      write_custom_value libc (bytes "SCA:" ++ val) b
      = answer (between f1_0 f7000 x) (set_signal_chain_amplification x)
               (bytes "SCA:" ++ val)).
Proof.
  intros Hwb x answer. subst answer. cbv beta zeta.
  split; [|split]; intros Hval.
  - rewrite write_runs by (done || (simpl; lia)).
    set (b' := set_write_buffer _ b). unfold dispatch.
    assert (str_at (write_buffer b') 5 = c_str val) as ->.
    { unfold str_at, b', received. simpl. apply c_str_terminated. }
    assert (forall c, has (write_buffer b') 0 c = Ascii.eqb "D" c) as H0 by done.
    assert (forall c, has (write_buffer b') 1 c = Ascii.eqb "D" c) as H1 by done.
    assert (forall c, has (write_buffer b') 2 c = Ascii.eqb "S" c) as H2 by done.
    assert (forall c, has (write_buffer b') 3 c = Ascii.eqb "A" c) as H3 by done.
    assert (forall c, has (write_buffer b') 4 c = Ascii.eqb ":" c) as H4 by done.
    rewrite !H0, !H1, !H2, !H3, !H4. decide_tests. fold x.
    destruct (between _ _ x); reflexivity.
  - rewrite write_runs by (done || (simpl; lia)).
    set (b' := set_write_buffer _ b). unfold dispatch.
    assert (str_at (write_buffer b') 4 = c_str val) as ->.
    { unfold str_at, b', received. simpl. apply c_str_terminated. }
    assert (forall c, has (write_buffer b') 0 c = Ascii.eqb "S" c) as H0 by done.
    assert (forall c, has (write_buffer b') 1 c = Ascii.eqb "C" c) as H1 by done.
    assert (forall c, has (write_buffer b') 2 c = Ascii.eqb "O" c) as H2 by done.
    assert (forall c, has (write_buffer b') 3 c = Ascii.eqb ":" c) as H3 by done.
    rewrite !H0, !H1, !H2, !H3. decide_tests. fold x.
    destruct (between _ _ x); reflexivity.
  - rewrite write_runs by (done || (simpl; lia)).
    set (b' := set_write_buffer _ b). unfold dispatch.
    assert (str_at (write_buffer b') 4 = c_str val) as ->.
    { unfold str_at, b', received. simpl. apply c_str_terminated. }
    assert (forall c, has (write_buffer b') 0 c = Ascii.eqb "S" c) as H0 by done.
    assert (forall c, has (write_buffer b') 1 c = Ascii.eqb "C" c) as H1 by done.
    assert (forall c, has (write_buffer b') 2 c = Ascii.eqb "A" c) as H2 by done.
    assert (forall c, has (write_buffer b') 3 c = Ascii.eqb ":" c) as H3 by done.
    rewrite !H0, !H1, !H2, !H3. decide_tests. fold x.
    destruct (between _ _ x); reflexivity.
Qed.

(** X12: the five commands without an argument are prefix tests: whatever
    follows the word, in a write of at most 19 bytes, [IDDS] starts the
    generator at 1000 Hz, [DDSOFF] puts it to sleep, [ON] sets the power
    flag and then calls [power_up], [START] sets the start flag and calls
    nothing, [OFF] calls [power_down] and clears neither flag.  Each
    returns [len]. *)
Theorem plain_commands (rest : list ascii) (b : ble_state) :
  length (write_buffer b) = 20%nat ->
  let after (buf : list ascii) := set_write_buffer (received (write_buffer b) buf) b in
  let len (buf : list ascii) := Some (Z.of_nat (length buf)) in
  ((length rest <= 15)%nat ->
   write_custom_value libc (bytes "IDDS" ++ rest) b
   = Ok (call (start_dds 1000) (after (bytes "IDDS" ++ rest)), len (bytes "IDDS" ++ rest)))
  /\ ((length rest <= 13)%nat ->
      write_custom_value libc (bytes "DDSOFF" ++ rest) b
      = Ok (call dds_sleep (after (bytes "DDSOFF" ++ rest)), len (bytes "DDSOFF" ++ rest)))
  /\ ((length rest <= 17)%nat ->
      write_custom_value libc (bytes "ON" ++ rest) b
      = Ok (call power_up (set_on_received true (after (bytes "ON" ++ rest))),
            len (bytes "ON" ++ rest)))
  /\ ((length rest <= 14)%nat ->
      write_custom_value libc (bytes "START" ++ rest) b
      = Ok (set_start_received true (after (bytes "START" ++ rest)),
            len (bytes "START" ++ rest)))
  /\ ((length rest <= 16)%nat ->
      write_custom_value libc (bytes "OFF" ++ rest) b
      = Ok (call power_down (after (bytes "OFF" ++ rest)), len (bytes "OFF" ++ rest))).
Proof.
  intros Hwb after len. subst after len. cbv beta.
  split; [|split; [|split; [|split]]]; intros Hrest.
  - rewrite write_runs by (done || (simpl; lia)).
    set (b' := set_write_buffer _ b). unfold dispatch.
    assert (forall c, has (write_buffer b') 0 c = Ascii.eqb "I" c) as H0 by done.
    assert (forall c, has (write_buffer b') 1 c = Ascii.eqb "D" c) as H1 by done.
    assert (forall c, has (write_buffer b') 2 c = Ascii.eqb "D" c) as H2 by done.
    assert (forall c, has (write_buffer b') 3 c = Ascii.eqb "S" c) as H3 by done.
    rewrite !H0, !H1, !H2, !H3. decide_tests. reflexivity.
  - rewrite write_runs by (done || (simpl; lia)).
    set (b' := set_write_buffer _ b). unfold dispatch.
    assert (forall c, has (write_buffer b') 0 c = Ascii.eqb "D" c) as H0 by done.
    assert (forall c, has (write_buffer b') 1 c = Ascii.eqb "D" c) as H1 by done.
    assert (forall c, has (write_buffer b') 2 c = Ascii.eqb "S" c) as H2 by done.
    assert (forall c, has (write_buffer b') 3 c = Ascii.eqb "O" c) as H3 by done.
    assert (forall c, has (write_buffer b') 4 c = Ascii.eqb "F" c) as H4 by done.
    assert (forall c, has (write_buffer b') 5 c = Ascii.eqb "F" c) as H5 by done.
    rewrite !H0, !H1, !H2, !H3, !H4, !H5. decide_tests. reflexivity.
  - rewrite write_runs by (done || (simpl; lia)).
    set (b' := set_write_buffer _ b). unfold dispatch.
    assert (forall c, has (write_buffer b') 0 c = Ascii.eqb "O" c) as H0 by done.
    assert (forall c, has (write_buffer b') 1 c = Ascii.eqb "N" c) as H1 by done.
    rewrite !H0, !H1. decide_tests. reflexivity.
  - rewrite write_runs by (done || (simpl; lia)).
    set (b' := set_write_buffer _ b). unfold dispatch.
    assert (forall c, has (write_buffer b') 0 c = Ascii.eqb "S" c) as H0 by done.
    assert (forall c, has (write_buffer b') 1 c = Ascii.eqb "T" c) as H1 by done.
    assert (forall c, has (write_buffer b') 2 c = Ascii.eqb "A" c) as H2 by done.
    assert (forall c, has (write_buffer b') 3 c = Ascii.eqb "R" c) as H3 by done.
    assert (forall c, has (write_buffer b') 4 c = Ascii.eqb "T" c) as H4 by done.
    rewrite !H0, !H1, !H2, !H3, !H4. decide_tests. reflexivity.
  - rewrite write_runs by (done || (simpl; lia)).
    set (b' := set_write_buffer _ b). unfold dispatch.
    assert (forall c, has (write_buffer b') 0 c = Ascii.eqb "O" c) as H0 by done.
    assert (forall c, has (write_buffer b') 1 c = Ascii.eqb "F" c) as H1 by done.
    assert (forall c, has (write_buffer b') 2 c = Ascii.eqb "F" c) as H2 by done.
    rewrite !H0, !H1, !H2. decide_tests. reflexivity.
Qed.

(** The flags after the branches, by the two prefix tests that set them. *)
Lemma dispatch_on (len : Z) (b : ble_state) :
  on_received (dispatch libc len b).1
  = on_received b || (has (write_buffer b) 0 "O" && has (write_buffer b) 1 "N").
Proof.
  destruct (has (write_buffer b) 0 "O" && has (write_buffer b) 1 "N") eqn:HON.
  - apply andb_true_iff in HON as [H0 H1].
    apply Ascii.eqb_eq in H0, H1.
    unfold dispatch, has. rewrite H0, H1. decide_tests.
    simpl. by rewrite orb_true_r.
  - rewrite orb_false_r. unfold dispatch. rewrite HON.
    repeat (match goal with |- context [if ?c then _ else _] => destruct c end);
      reflexivity.
Qed.

Lemma dispatch_start (len : Z) (b : ble_state) :
  start_received (dispatch libc len b).1
  = start_received b
    || (has (write_buffer b) 0 "S" && has (write_buffer b) 1 "T"
        && has (write_buffer b) 2 "A" && has (write_buffer b) 3 "R"
        && has (write_buffer b) 4 "T").
Proof.
  destruct (has (write_buffer b) 0 "S" && has (write_buffer b) 1 "T"
            && has (write_buffer b) 2 "A" && has (write_buffer b) 3 "R"
            && has (write_buffer b) 4 "T") eqn:HST.
  - apply andb_true_iff in HST as [HST H4]. apply andb_true_iff in HST as [HST H3].
    apply andb_true_iff in HST as [HST H2]. apply andb_true_iff in HST as [H0 H1].
    apply Ascii.eqb_eq in H0, H1, H2, H3, H4.
    unfold dispatch, has. rewrite H0, H1, H2, H3, H4. decide_tests.
    simpl. by rewrite orb_true_r.
  - rewrite orb_false_r. unfold dispatch. rewrite HST.
    repeat (match goal with |- context [if ?c then _ else _] => destruct c end);
      reflexivity.
Qed.

Lemma on_test (wb buf : list ascii) :
  has (received wb buf) 0 "O" && has (received wb buf) 1 "N" = true
  <-> exists rest, buf = bytes "ON" ++ rest.
Proof.
  unfold has, at_, received.
  destruct buf as [|c0 [|c1 rest]]; simpl.
  - split; [done | by intros [? ?]].
  - rewrite andb_false_r. split; [done | by intros [? ?]].
  - rewrite andb_true_iff, !Ascii.eqb_eq. split.
    + intros [-> ->]. by eexists.
    + intros [? [= -> -> _]]. done.
Qed.

Lemma start_test (wb buf : list ascii) :
  has (received wb buf) 0 "S" && has (received wb buf) 1 "T"
  && has (received wb buf) 2 "A" && has (received wb buf) 3 "R"
  && has (received wb buf) 4 "T" = true
  <-> exists rest, buf = bytes "START" ++ rest.
Proof.
  unfold has, at_, received.
  destruct buf as [|c0 [|c1 [|c2 [|c3 [|c4 rest]]]]]; simpl;
    rewrite ?andb_false_r; try (split; [done | by intros [? ?]]).
  rewrite !andb_true_iff, !Ascii.eqb_eq. split.
  - intros [[[[-> ->] ->] ->] ->]. by eexists.
  - intros [? [= -> -> -> -> -> _]]. done.
Qed.

(** X13: what sets the two wireless gate flags.  After a write the power
    flag is set exactly when it was set before or the bytes written begin
    with [ON]; the start flag exactly when it was set before or the bytes
    begin with [START].  No other command, [OFF] included, changes either
    flag. *)
Theorem flags_follow_their_commands (buf : list ascii) (b : ble_state) :
  length (write_buffer b) = 20%nat ->
  (length buf <= 19)%nat ->
  exists b' r,
    write_custom_value libc buf b = Ok (b', r)
    /\ (on_received b' = true
        <-> on_received b = true \/ exists rest, buf = bytes "ON" ++ rest)
    /\ (start_received b' = true
        <-> start_received b = true \/ exists rest, buf = bytes "START" ++ rest).
Proof.
  intros Hwb Hbuf. rewrite write_runs by done.
  set (b0 := set_write_buffer _ b).
  pose proof (dispatch_on (Z.of_nat (length buf)) b0) as Hon.
  pose proof (dispatch_start (Z.of_nat (length buf)) b0) as Hstart.
  destruct (dispatch libc _ b0) as [b' r]. exists b', r. simpl in Hon, Hstart.
  split; [done|].
  rewrite Hon, Hstart, !orb_true_iff.
  change (write_buffer b0) with (received (write_buffer b) buf).
  rewrite on_test, start_test. done.
Qed.

Lemma write_in_range (buf : list ascii) (b : ble_state)
      (r : ble_state * option Z) :
  write_custom_value libc buf b = Ok r ->
  (settings_in_range b = true -> settings_in_range r.1 = true)
  /\ (forallb (in_range libc) (calls b) = true
      -> forallb (in_range libc) (calls r.1) = true)
  /\ (calls r.1 = calls b \/ exists c, calls r.1 = calls b ++ [c])
  /\ notify_enabled r.1 = notify_enabled b
  /\ ble_connected r.1 = ble_connected b
  /\ chunk_calls r.1 = chunk_calls b
  /\ notified r.1 = notified b.
Proof.
  unfold write_custom_value.
  destruct (receive _ _) as [wb| | |]; simpl; [|done..].
  intros [= <-]. unfold dispatch.
  pose proof (wrap16_range (atoi libc (str_at wb 5))) as Hhz.
  repeat (match goal with
          | |- context [if ?c then _ else _] => destruct c eqn:?
          end);
    simpl in *; unfold settings_in_range; simpl;
    rewrite ?forallb_app; simpl;
    (split; [|split; [|split; [eauto|done]]]);
    rewrite ?andb_true_iff, ?Z.leb_le, ?Z.ltb_lt, ?Z.eqb_eq in *;
    try tauto; try (intuition lia).
Qed.

(** X14: over any sequence of writes that runs without a fault.  Every
    call of a peripheral routine carries arguments that passed the range
    test of its branch; the stored digipot and amplifier settings stay in
    their ranges; a write makes at most one call and removes none; and the
    link state ([ble_connected], [notify_enabled]) and what was sent over
    it are never touched. *)
Theorem peripheral_arguments_in_range (bufs : list (list ascii)) :
  forall b b' : ble_state,
    writes libc bufs b = Ok b' ->
    settings_in_range b = true ->
    forallb (in_range libc) (calls b) = true ->
    settings_in_range b' = true
    /\ forallb (in_range libc) (calls b') = true
    /\ (exists new, calls b' = calls b ++ new /\ (length new <= length bufs)%nat)
    /\ notify_enabled b' = notify_enabled b
    /\ ble_connected b' = ble_connected b
    /\ chunk_calls b' = chunk_calls b
    /\ notified b' = notified b.
Proof.
  induction bufs as [|buf bufs IH]; intros b b'; simpl.
  - intros [= <-] Hs Hc. repeat split; try done.
    exists []. by rewrite app_nil_r.
  - destruct (write_custom_value libc buf b) as [r| | |] eqn:Hw; simpl; [|done..].
    intros Hrun Hs Hc.
    destruct (write_in_range _ _ _ Hw) as (Hs1 & Hc1 & Hnew & Hn & Hl & Hk & Ht).
    destruct (IH _ _ Hrun (Hs1 Hs) (Hc1 Hc)) as (Hs' & Hc' & (new & Hq & Hlen) & Hn' & Hl' & Hk' & Ht').
    repeat split; try congruence.
    destruct Hnew as [Hsame | [c Hone]].
    + exists new. rewrite Hq, Hsame. split; [done | lia].
    + exists (c :: new). rewrite Hq, Hone, <- app_assoc. split; [done | simpl; lia].
Qed.

End Commands.

(** X7 to X14 on the start-up state, with the decimal numerals of
    [Libc]. *)
Lemma sdds_command_witness :
  Bluetooth.write_custom_value Libc.decimal (bytes "SDDS:70000") Bluetooth.init_state
  = Ok (Bluetooth.call (Bluetooth.changeDDSVal 4464)
          (Bluetooth.set_write_buffer
             (received (Bluetooth.write_buffer Bluetooth.init_state) (bytes "SDDS:70000"))
             Bluetooth.init_state), Some 10).
Proof.
  apply (sdds_command Libc.decimal (bytes "70000") Bluetooth.init_state);
    [reflexivity | simpl; lia].
Defined.

Lemma pga_command_witness :
  Bluetooth.write_custom_value Libc.decimal (bytes "P2:7") Bluetooth.init_state
  = Ok (Bluetooth.call (Bluetooth.configure_pga 2 7)
          (Bluetooth.set_pga 2 7
             (Bluetooth.set_write_buffer
                (received (Bluetooth.write_buffer Bluetooth.init_state) (bytes "P2:7"))
                Bluetooth.init_state)), Some 4)
  /\ Bluetooth.write_custom_value Libc.decimal (bytes "P3:7") Bluetooth.init_state
     = Ok (Bluetooth.set_write_buffer
             (received (Bluetooth.write_buffer Bluetooth.init_state) (bytes "P3:7"))
             Bluetooth.init_state, Some 4).
Proof.
  split.
  - apply (pga_command Libc.decimal "2" (bytes "7") Bluetooth.init_state);
      [reflexivity | simpl; lia].
  - apply (pga_command Libc.decimal "3" (bytes "7") Bluetooth.init_state);
      [reflexivity | simpl; lia].
Defined.

Lemma digipot_command_witness :
  Bluetooth.write_custom_value Libc.decimal (bytes "D3:255") Bluetooth.init_state
  = Ok (Bluetooth.call (Bluetooth.digipot_wiper_set 3 255)
          (Bluetooth.set_digipot 3 255
             (Bluetooth.set_write_buffer
                (received (Bluetooth.write_buffer Bluetooth.init_state) (bytes "D3:255"))
                Bluetooth.init_state)), Some 6)
  /\ Bluetooth.write_custom_value Libc.decimal (bytes "D3:256") Bluetooth.init_state
     = Ok (Bluetooth.set_write_buffer
             (received (Bluetooth.write_buffer Bluetooth.init_state) (bytes "D3:256"))
             Bluetooth.init_state, Some 6).
Proof.
  split.
  - apply (digipot_command Libc.decimal "3" (bytes "255") Bluetooth.init_state);
      [reflexivity | simpl; lia].
  - apply (digipot_command Libc.decimal "3" (bytes "256") Bluetooth.init_state);
      [reflexivity | simpl; lia].
Defined.

Lemma mux_command_witness :
  Bluetooth.write_custom_value Libc.decimal (bytes "M:7") Bluetooth.init_state
  = Ok (Bluetooth.call (Bluetooth.set_mux 7)
          (Bluetooth.set_write_buffer
             (received (Bluetooth.write_buffer Bluetooth.init_state) (bytes "M:7"))
             Bluetooth.init_state), Some 3)
  /\ Bluetooth.write_custom_value Libc.decimal (bytes "M:8") Bluetooth.init_state
     = Ok (Bluetooth.set_write_buffer
             (received (Bluetooth.write_buffer Bluetooth.init_state) (bytes "M:8"))
             Bluetooth.init_state, None).
Proof.
  split.
  - apply (mux_command Libc.decimal "7" [] Bluetooth.init_state);
      [reflexivity | simpl; lia].
  - apply (mux_command Libc.decimal "8" [] Bluetooth.init_state);
      [reflexivity | simpl; lia].
Defined.

Lemma decimal_commands_witness :
  Bluetooth.write_custom_value Libc.decimal (bytes "SCA:7000.5") Bluetooth.init_state
  = Ok (Bluetooth.set_write_buffer
          (received (Bluetooth.write_buffer Bluetooth.init_state) (bytes "SCA:7000.5"))
          Bluetooth.init_state, Some 10)
  /\ Bluetooth.write_custom_value Libc.decimal (bytes "SCO:-1.000000000000")
       Bluetooth.init_state
     = Ok (Bluetooth.call (Bluetooth.set_signal_chain_offset (-1))
             (Bluetooth.set_write_buffer
                (received (Bluetooth.write_buffer Bluetooth.init_state)
                          (bytes "SCO:-1.000000000000"))
                Bluetooth.init_state), Some 19).
Proof.
  split.
  - destruct (decimal_commands Libc.decimal (bytes "7000.5") Bluetooth.init_state eq_refl)
      as (_ & _ & Hsca).
    apply Hsca. simpl. lia.
  - destruct (decimal_commands Libc.decimal (bytes "-1.000000000000")
                Bluetooth.init_state eq_refl) as (_ & Hsco & _).
    apply Hsco. simpl. lia.
Defined.

Lemma plain_commands_witness :
  Bluetooth.write_custom_value Libc.decimal (bytes "ONWARDS_AND_UPWARDS")
    Bluetooth.init_state
  = Ok (Bluetooth.call Bluetooth.power_up
          (Bluetooth.set_on_received true
             (Bluetooth.set_write_buffer
                (received (Bluetooth.write_buffer Bluetooth.init_state)
                          (bytes "ONWARDS_AND_UPWARDS"))
                Bluetooth.init_state)), Some 19).
Proof.
  destruct (plain_commands Libc.decimal (bytes "WARDS_AND_UPWARDS")
              Bluetooth.init_state eq_refl) as (_ & _ & Hon & _).
  apply Hon. simpl. lia.
Defined.

Lemma flags_follow_their_commands_witness :
  exists b' r,
    Bluetooth.write_custom_value Libc.decimal (bytes "OFF")
      (Bluetooth.set_on_received true Bluetooth.init_state) = Ok (b', r)
    /\ Bluetooth.on_received b' = true
    /\ Bluetooth.start_received b' <> true.
Proof.
  destruct (flags_follow_their_commands Libc.decimal (bytes "OFF")
              (Bluetooth.set_on_received true Bluetooth.init_state))
    as (b' & r & Hrun & Hon & Hstart); [reflexivity | simpl; lia |].
  exists b', r. split; [exact Hrun|]. split.
  - apply Hon. left. reflexivity.
  - intros H. apply Hstart in H as [H | [rest H]]; discriminate H.
Defined.

Lemma peripheral_arguments_in_range_witness :
  exists b',
    writes Libc.decimal [bytes "P1:3"; bytes "D2:200"; bytes "M:5"; bytes "SDDS:70000";
                         bytes "D9:1"; bytes "HELLO"] Bluetooth.init_state = Ok b'
    /\ settings_in_range b' = true
    /\ forallb (in_range Libc.decimal) (Bluetooth.calls b') = true.
Proof.
  assert (exists b',
             writes Libc.decimal [bytes "P1:3"; bytes "D2:200"; bytes "M:5";
                                  bytes "SDDS:70000"; bytes "D9:1"; bytes "HELLO"]
                    Bluetooth.init_state = Ok b') as [b' Hrun].
  { eexists. vm_compute. reflexivity. }
  destruct (peripheral_arguments_in_range Libc.decimal _ _ _ Hrun) as (Hs & Hc & _);
    [reflexivity | reflexivity |].
  exists b'. split; [exact Hrun|]. split; [exact Hs | exact Hc].
Defined.

(** ** main.c: the serial command line *)

Section Serial.

Import Main.

Lemma line_char_spec (c : ascii) :
  line_char c = true ->
  valid_char c = true /\ Ascii.eqb c CR = false /\ Ascii.eqb c Bluetooth.NUL = false.
Proof.
  destruct c as [[] [] [] [] [] [] [] []]; vm_compute; intros H;
    (discriminate H || auto).
Qed.

Lemma c_str_line (line rest : list ascii) :
  forallb line_char line = true ->
  Bluetooth.c_str (line ++ Bluetooth.NUL :: rest) = line.
Proof.
  induction line as [|c line IH]; simpl; [done|].
  intros [Hc Hline]%andb_true_iff.
  apply line_char_spec in Hc as (_ & _ & ->). by rewrite IH.
Qed.

Lemma uart_run_app (evts1 evts2 : list uart_event) : forall m,
  uart_run (evts1 ++ evts2) m = m' ← uart_run evts1 m; uart_run evts2 m'.
Proof.
  induction evts1 as [|evt evts1 IH]; intros m; simpl; [done|].
  destruct (uart_cb evt m); simpl; [apply IH | done..].
Qed.

(** Characters of a line, typed from index [k]: they are stored from [k]
    on, and no flag changes. *)
Lemma typing (line : list ascii) : forall (m : main_state) (k : nat),
  cmd_index m = Z.of_nat k ->
  length (command_buffer m) = 32%nat ->
  (k + length line <= 32)%nat ->
  forallb line_char line = true ->
  uart_run (keyed line) m
  = Ok {| command_buffer := take k (command_buffer m) ++ line
                            ++ drop (k + length line) (command_buffer m);
          cmd_index := Z.of_nat (k + length line);
          start_received := start_received m;
          on_recieved := on_recieved m |}.
Proof.
  induction line as [|c line IH]; intros m k Hk Hlen Hfit Hline.
  - simpl. rewrite Nat.add_0_r, take_drop, <- Hk. by destruct m.
  - apply andb_true_iff in Hline as [Hc Hline].
    apply line_char_spec in Hc as (Hv & Hcr & _).
    change (keyed (c :: line)) with (UART_RX_RDY c :: keyed line).
    cbn [uart_run uart_cb].
    rewrite Hv, Hk. simpl in Hfit.
    rewrite store_ok by lia. cbn [mbind result_bind]. rewrite Hcr.
    cbn [mbind result_bind].
    rewrite (IH _ (S k)); cbn [command_buffer cmd_index start_received on_recieved];
      [|lia|by rewrite length_insert|lia|done].
    rewrite Nat2Z.id. f_equal. cbn [length].
    f_equal; [|lia].
    rewrite (take_S_r _ _ c) by (apply list_lookup_insert_eq; lia).
    rewrite take_insert_ge by lia.
    rewrite drop_insert_lt by lia.
    rewrite <- app_assoc, Nat.add_succ_r. reflexivity.
Qed.

(** X15: a line typed from the start of the buffer and ended by the
    carriage return.  The line replaces the head of the buffer, is
    terminated where the carriage return was stored, and is compared as a
    whole: the start flag is set exactly by the line [START], the power
    flag exactly by the line [ON], whatever the rest of the buffer held;
    the index is back at 0 for the next line.  The events carry one
    character each, and between them the stores of the callback are the
    only writes to the buffer. *)
Theorem serial_line (line : list ascii) (m : main_state) :
  length (command_buffer m) = 32%nat ->
  cmd_index m = 0 ->
  forallb line_char line = true ->
  (length line <= 31)%nat ->
  uart_run (keyed (line ++ [CR])) m
  = Ok {| command_buffer := line ++ Bluetooth.NUL
                            :: drop (S (length line)) (command_buffer m);
          cmd_index := 0;
          start_received :=
            start_received m || String.eqb (string_of_list_ascii line) "START";
          on_recieved :=
            on_recieved m || String.eqb (string_of_list_ascii line) "ON" |}.
Proof.
  intros Hlen Hk Hline Hfit.
  unfold keyed. rewrite map_app. fold (keyed line). rewrite uart_run_app.
  rewrite (typing line m 0) by (done || lia). cbn [mbind result_bind].
  rewrite take_0, Nat.add_0_l. cbn [app].
  set (cb := command_buffer m) in *.
  cbn [map uart_run uart_cb command_buffer cmd_index start_received on_recieved].
  change (valid_char CR) with true. cbv iota.
  assert (length (line ++ drop (length line) cb) = 32%nat) as Hlen1.
  { rewrite length_app, length_drop. lia. }
  rewrite store_ok by lia. cbn [mbind result_bind].
  change (Ascii.eqb CR CR) with true. cbv iota.
  rewrite store_ok by (rewrite length_insert; lia). cbn [mbind result_bind].
  replace (Z.to_nat (Z.of_nat (length line) + 1 - 1)) with (length line) by lia.
  rewrite Nat2Z.id, list_insert_insert_eq.
  assert (<[length line:=Bluetooth.NUL]> (line ++ drop (length line) cb)
          = line ++ Bluetooth.NUL :: drop (S (length line)) cb) as ->.
  { rewrite <- (Nat.add_0_r (length line)) at 1. rewrite insert_app_r.
    destruct (drop (length line) cb) as [|c rest] eqn:Hd.
    - apply (f_equal length) in Hd. rewrite length_drop in Hd. simpl in Hd. lia.
    - simpl. do 2 f_equal.
      change (S (length line)) with (1 + length line)%nat.
      rewrite Nat.add_comm, <- drop_drop, Hd. done. }
  unfold strcmp_eq. rewrite c_str_line by done.
  destruct (String.eqb_spec (string_of_list_ascii line) "START") as [->|_].
  - simpl. by rewrite orb_true_r, orb_false_r.
  - rewrite orb_false_r.
    destruct (String.eqb (string_of_list_ascii line) "ON");
      by rewrite ?orb_true_r, ?orb_false_r.
Qed.

(** X16: the index into the 32-byte line buffer is not checked.  When the
    characters kept since the last line end fill the buffer, the next
    character the callback keeps (the carriage return included) is stored
    at index 32, one past its end. *)
Theorem serial_overflow (line : list ascii) (c : ascii) (m : main_state) :
  length (command_buffer m) = 32%nat ->
  0 <= cmd_index m ->
  cmd_index m + Z.of_nat (length line) = 32 ->
  forallb line_char line = true ->
  valid_char c = true ->
  (exists m', uart_run (keyed line) m = Ok m' /\ cmd_index m' = 32)
  /\ uart_run (keyed (line ++ [c])) m = OutOfBounds.
Proof.
  intros Hlen Hk0 Hk Hline Hc.
  assert (uart_run (keyed line) m
          = Ok {| command_buffer := take (Z.to_nat (cmd_index m)) (command_buffer m) ++ line
                                    ++ drop (Z.to_nat (cmd_index m) + length line)
                                            (command_buffer m);
                  cmd_index := Z.of_nat (Z.to_nat (cmd_index m) + length line);
                  start_received := start_received m;
                  on_recieved := on_recieved m |}) as Hrun.
  { apply typing; [lia | done | lia | done]. }
  split.
  - eexists. split; [exact Hrun|]. simpl. lia.
  - unfold keyed. rewrite map_app. fold (keyed line). rewrite uart_run_app, Hrun.
    cbn [mbind result_bind map uart_run uart_cb command_buffer cmd_index].
    rewrite Hc. rewrite store_oob; [done|].
    rewrite !length_app, length_take, length_drop. lia.
Qed.

Lemma uart_cb_keeps (evt : uart_event) (m m' : main_state) :
  uart_cb evt m = Ok m' ->
  (length (command_buffer m') = length (command_buffer m))
  /\ (0 <= cmd_index m <= Z.of_nat (length (command_buffer m))
      -> 0 <= cmd_index m' <= Z.of_nat (length (command_buffer m)))
  /\ (on_recieved m = true -> on_recieved m' = true)
  /\ (start_received m = true -> start_received m' = true).
Proof.
  destruct evt as [c| |]; simpl; [|by intros [= <-]..].
  destruct (valid_char c); [|intros [= <-]; simpl; repeat split; auto; lia].
  unfold store.
  destruct ((0 <=? cmd_index m) && (cmd_index m <? Z.of_nat (length (command_buffer m))))
    eqn:Hin; simpl; [|done].
  apply andb_true_iff in Hin as [H0%Z.leb_le H1%Z.ltb_lt].
  destruct (Ascii.eqb c CR).
  - rewrite length_insert.
    destruct ((0 <=? cmd_index m + 1 - 1)
              && (cmd_index m + 1 - 1 <? Z.of_nat (length (command_buffer m))));
      simpl; [|done].
    repeat case_match; intros [= <-]; simpl; rewrite !length_insert;
      repeat split; auto; lia.
  - intros [= <-]; simpl; rewrite !length_insert; repeat split; auto; lia.
Qed.

(** X17: over any sequence of serial events that runs without a fault, the
    line buffer keeps its 32 bytes, the index stays within 0..32, and a
    gate flag that is set stays set: the callback never clears one. *)
Theorem serial_flags_are_kept (evts : list uart_event) :
  forall m m' : main_state,
    uart_run evts m = Ok m' ->
    length (command_buffer m) = 32%nat ->
    0 <= cmd_index m <= 32 ->
    length (command_buffer m') = 32%nat
    /\ 0 <= cmd_index m' <= 32
    /\ (on_recieved m = true -> on_recieved m' = true)
    /\ (start_received m = true -> start_received m' = true).
Proof.
  induction evts as [|evt evts IH]; intros m m'; simpl.
  - by intros [= <-].
  - destruct (uart_cb evt m) as [m1| | |] eqn:Hcb; simpl; [|done..].
    intros Hrun Hlen Hk.
    destruct (uart_cb_keeps _ _ _ Hcb) as (Hlen1 & Hk1 & Hon1 & Hst1).
    rewrite Hlen in Hlen1, Hk1.
    destruct (IH _ _ Hrun Hlen1 (Hk1 Hk)) as (Hlen' & Hk' & Hon' & Hst').
    repeat split; auto; lia.
Qed.

End Serial.

Lemma serial_line_witness :
  exists m',
    uart_run (keyed (bytes "ON" ++ [Main.CR]))
      {| Main.command_buffer := bytes "START" ++ replicate 27 Bluetooth.NUL;
         Main.cmd_index := 0; Main.start_received := false; Main.on_recieved := false |}
    = Ok m'
    /\ Main.on_recieved m' = true /\ Main.start_received m' = false
    /\ Main.cmd_index m' = 0.
Proof.
  eexists. split.
  - apply (serial_line (bytes "ON")); [reflexivity | reflexivity | reflexivity | simpl; lia].
  - repeat split.
Defined.

Lemma serial_overflow_witness :
  uart_run (keyed (replicate 32 "A"%char ++ [Main.CR])) Main.init_state = OutOfBounds.
Proof.
  apply (serial_overflow (replicate 32 "A"%char) Main.CR Main.init_state);
    [reflexivity | simpl; lia | reflexivity | reflexivity | reflexivity].
Defined.

Lemma serial_flags_are_kept_witness :
  exists m',
    uart_run (keyed (bytes "OFF" ++ [Main.CR] ++ bytes "x1"))
             (Main.set_on_recieved true Main.init_state) = Ok m'
    /\ Main.on_recieved m' = true
    /\ 0 <= Main.cmd_index m' <= 32.
Proof.
  eexists. split; [reflexivity|].
  destruct (serial_flags_are_kept
              (keyed (bytes "OFF" ++ [Main.CR] ++ bytes "x1"))
              (Main.set_on_recieved true Main.init_state) _ eq_refl)
    as (_ & Hk & Hon & _); [reflexivity | simpl; lia |].
  split; [apply Hon; reflexivity | exact Hk].
Defined.

(** ** main.c: the two wait loops and the wireless flags *)

Section Polling.

Import Main.

Variable libc : Bluetooth.platform.

Lemma on_distance_bound (s : system) : (on_distance s <= 7)%nat.
Proof.
  unfold on_distance.
  destruct (at_pc s) as [| |[]| | | | |[]| |], (on_recieved (main s)); lia.
Qed.

Lemma start_distance_bound (s : system) : (start_distance s <= 7)%nat.
Proof.
  unfold start_distance.
  destruct (at_pc s) as [| |[]| | | | |[]| |], (start_received (main s)); lia.
Qed.

(** One action, the wireless power flag being set: the flag stays, a step
    of the main thread brings the end of [wait_for_on_command] one step
    nearer, and no other action moves it away. *)
Lemma on_distance_step (act : action) (s s' : system) :
  step libc act s = Ok s' ->
  Bluetooth.on_received (ble s) = true ->
  Bluetooth.on_received (ble s') = true
  /\ (on_distance s' <= on_distance s - main_thread_steps [act])%nat.
Proof.
  destruct act as [|evt|buf]; simpl.
  - intros [= <-] Hon. unfold main_step, on_distance.
    destruct s as [m b p]; simpl in *.
    destruct p as [| |[]| | | | |[]| |]; simpl;
      unfold Bluetooth.ble_on_received; rewrite ?Hon;
      destruct (on_recieved m), (start_received m); simpl; (split; [done | lia]).
  - destruct (uart_cb evt (main s)) as [m'| | |] eqn:Hcb; simpl; [|done..].
    intros [= <-] Hon. split; [done|].
    destruct (uart_cb_keeps _ _ _ Hcb) as (_ & _ & Hkept & _).
    unfold on_distance. simpl.
    destruct (at_pc s) as [| |[]| | | | |[]| |], (on_recieved (main s));
      rewrite ?Hkept by done; try lia; destruct (on_recieved m'); lia.
  - destruct (Bluetooth.write_custom_value libc buf (ble s)) as [r| | |] eqn:Hw;
      simpl; [|done..].
    intros [= <-] Hon. split; [|unfold on_distance; simpl; lia].
    by apply (wireless_flags_kept libc buf (ble s)).
Qed.

Lemma start_distance_step (act : action) (s s' : system) :
  step libc act s = Ok s' ->
  Bluetooth.start_received (ble s) = true ->
  waiting_for_on (at_pc s) = false ->
  Bluetooth.start_received (ble s') = true
  /\ waiting_for_on (at_pc s') = false
  /\ (start_distance s' <= start_distance s - main_thread_steps [act])%nat.
Proof.
  destruct act as [|evt|buf]; simpl.
  - intros [= <-] Hst. unfold main_step, start_distance.
    destruct s as [m b p]; simpl in *.
    destruct p as [| |[]| | | | |[]| |]; simpl; try done;
      unfold Bluetooth.ble_start_received; rewrite ?Hst;
      destruct (on_recieved m), (start_received m); simpl;
      (split; [done | split; [done | lia]]).
  - destruct (uart_cb evt (main s)) as [m'| | |] eqn:Hcb; simpl; [|done..].
    intros [= <-] Hst Hpc. split; [done|]. split; [done|].
    destruct (uart_cb_keeps _ _ _ Hcb) as (_ & _ & _ & Hkept).
    unfold start_distance. simpl.
    destruct (at_pc s) as [| |[]| | | | |[]| |], (start_received (main s));
      rewrite ?Hkept by done; try lia; destruct (start_received m'); lia.
  - destruct (Bluetooth.write_custom_value libc buf (ble s)) as [r| | |] eqn:Hw;
      simpl; [|done..].
    intros [= <-] Hst Hpc. split; [|split; [done | unfold start_distance; simpl; lia]].
    by apply (wireless_flags_kept libc buf (ble s)).
Qed.

Lemma on_distance_run (acts : list action) : forall s s' : system,
  run libc acts s = Ok s' ->
  Bluetooth.on_received (ble s) = true ->
  (on_distance s' <= on_distance s - main_thread_steps acts)%nat.
Proof.
  induction acts as [|act acts IH]; intros s s'; simpl.
  - intros [= <-] _. lia.
  - destruct (step libc act s) as [s1| | |] eqn:Hstep; simpl; [|done..].
    intros Hrun Hon.
    destruct (on_distance_step _ _ _ Hstep Hon) as [Hon1 Hd].
    specialize (IH _ _ Hrun Hon1). simpl in Hd.
    destruct act; lia.
Qed.

Lemma start_distance_run (acts : list action) : forall s s' : system,
  run libc acts s = Ok s' ->
  Bluetooth.start_received (ble s) = true ->
  waiting_for_on (at_pc s) = false ->
  waiting_for_on (at_pc s') = false
  /\ (start_distance s' <= start_distance s - main_thread_steps acts)%nat.
Proof.
  induction acts as [|act acts IH]; intros s s'; simpl.
  - intros [= <-] _ Hpc. split; [done | lia].
  - destruct (step libc act s) as [s1| | |] eqn:Hstep; simpl; [|done..].
    intros Hrun Hst Hpc.
    destruct (start_distance_step _ _ _ Hstep Hst Hpc) as (Hst1 & Hpc1 & Hd).
    destruct (IH _ _ Hrun Hst1 Hpc1) as [Hpc' Hd']. simpl in Hd.
    split; [done|]. destruct act; lia.
Qed.

(** X18: a command taken on the wireless channel opens its gate.  In
    every interleaving of main-thread steps, serial events and wireless
    writes that runs without a fault: when the wireless power flag is set
    and the main thread takes seven steps, it has left
    [wait_for_on_command]; when the wireless start flag is set and the
    main thread, past [wait_for_on_command], takes seven steps, it has
    left [wait_for_start_command] and is running.  Seven covers a result
    [false] fetched before the flag was set and stored after. *)
Theorem wireless_request_opens_the_gate (acts : list action) (s s' : system) :
  run libc acts s = Ok s' ->
  (7 <= main_thread_steps acts)%nat ->
  (Bluetooth.on_received (ble s) = true -> waiting_for_on (at_pc s') = false)
  /\ (Bluetooth.start_received (ble s) = true ->
      waiting_for_on (at_pc s) = false ->
      at_pc s' = Running).
Proof.
  intros Hrun Hsteps. split.
  - intros Hon.
    pose proof (on_distance_run _ _ _ Hrun Hon) as Hd.
    pose proof (on_distance_bound s) as Hb.
    assert (on_distance s' = 0%nat) as H0 by lia.
    unfold on_distance in H0.
    destruct (at_pc s') as [| |[]| | | | |[]| |], (on_recieved (main s'));
      done.
  - intros Hst Hpc.
    destruct (start_distance_run _ _ _ Hrun Hst Hpc) as [Hpc' Hd].
    pose proof (start_distance_bound s) as Hb.
    assert (start_distance s' = 0%nat) as H0 by lia.
    unfold start_distance in H0.
    destruct (at_pc s') as [| |[]| | | | |[]| |], (start_received (main s'));
      done.
Qed.

End Polling.

(** X18 from start-up: the wireless ON arrives after the main thread has
    fetched [false]; the stale store happens, and the next round of the
    loop opens the gate. *)
Lemma wireless_request_opens_the_gate_witness :
  exists s',
    Main.run Libc.decimal
      ([Main.MainThread; Main.MainThread; Main.Wireless (bytes "ON")]
       ++ replicate 7 Main.MainThread) Main.init = Ok s'
    /\ waiting_for_on (Main.at_pc s') = false.
Proof.
  assert (exists s1,
             Main.run Libc.decimal
               [Main.MainThread; Main.MainThread; Main.Wireless (bytes "ON")] Main.init
             = Ok s1
             /\ Bluetooth.on_received (Main.ble s1) = true
             /\ exists s', Main.run Libc.decimal (replicate 7 Main.MainThread) s1 = Ok s')
    as (s1 & H1 & Hon & s' & H2).
  { eexists. split; [reflexivity|]. split; [reflexivity|]. eexists. reflexivity. }
  exists s'. split.
  - vm_compute in H1. injection H1 as <-. exact H2.
  - apply (wireless_request_opens_the_gate Libc.decimal _ _ _ H2); [simpl; lia | exact Hon].
Defined.

(** X19, [wireless_request_is_kept]: the wireless flag is set, the main
    thread holds a stale [false], and a serial ON, the stale store and a
    wireless OFF follow. *)
Lemma wireless_request_is_kept_witness :
  exists s',
    Main.run Libc.decimal
      (typed "ON" ++ [Main.MainThread; Main.Wireless (bytes "OFF"); Main.MainThread])
      {| Main.main := Main.init_state;
         Main.ble := Bluetooth.set_on_received true Bluetooth.init_state;
         Main.at_pc := Main.WaitOn_store false |} = Ok s'
    /\ Bluetooth.on_received (Main.ble s') = true
    /\ power_requested s' = true.
Proof.
  assert (exists s',
             Main.run Libc.decimal
               (typed "ON" ++ [Main.MainThread; Main.Wireless (bytes "OFF"); Main.MainThread])
               {| Main.main := Main.init_state;
                  Main.ble := Bluetooth.set_on_received true Bluetooth.init_state;
                  Main.at_pc := Main.WaitOn_store false |} = Ok s') as [s' Hrun].
  { eexists. vm_compute. reflexivity. }
  exists s'. split; [exact Hrun|].
  apply (wireless_request_is_kept Libc.decimal _ _ _ Hrun). reflexivity.
Defined.
